(** * Engagement pipeline: cleaning, joining and metrics

    A shallow embedding of [src/data/preprocessing.py] and
    [src/analysis/engajamento.py].  A pandas DataFrame is a list of rows, each
    paired with its index label; a column is the list of one field's values;
    cells are nullable the way the pandas dtypes are ([None] is [<NA>]/[NaN]).
    Text is modelled over the code points below 256. *)

From Stdlib Require Import Ascii String.
From Stdlib Require Import List ZArith NArith Lia Bool.
From Stdlib Require Import Permutation Sorted.
Import ListNotations.

Set Implicit Arguments.

(* ------------------------------------------------------------------ *)
(** * Text cells: [str.strip] and [str.lower] *)

Module Texto.

Local Open Scope N_scope.

  (** [str.isspace] on the code points below 256. *)
Definition is_space (c : ascii) : bool :=
    let n := N_of_ascii c in
    ((9 <=? n) && (n <=? 13)) || ((28 <=? n) && (n <=? 32))
    || (n =? 133) || (n =? 160).

  (** [str.lower] on one code point: A-Z and the Latin-1 capitals. *)
Definition lower_char (c : ascii) : ascii :=
    let n := N_of_ascii c in
    if ((65 <=? n) && (n <=? 90))
       || ((192 <=? n) && (n <=? 214))
       || ((216 <=? n) && (n <=? 222))
    then ascii_of_N (n + 32) else c.

Fixpoint lstrip (s : string) : string :=
    match s with
    | EmptyString => EmptyString
    | String c r => if is_space c then lstrip r else s
    end.

Fixpoint rstrip (s : string) : string :=
    match s with
    | EmptyString => EmptyString
    | String c r =>
        match rstrip r with
        | EmptyString => if is_space c then EmptyString else String c EmptyString
        | r' => String c r'
        end
    end.

Definition strip (s : string) : string := rstrip (lstrip s).

Fixpoint lower (s : string) : string :=
    match s with
    | EmptyString => EmptyString
    | String c r => String (lower_char c) (lower r)
    end.

  (** A string that does not start with white space. *)
Definition sem_espaco_inicial (s : string) : bool :=
    match s with
    | EmptyString => true
    | String c _ => negb (is_space c)
    end.

End Texto.


(** A text cell of a ["string"] column; [None] is [<NA>]. *)
Definition Celula := option string.

(** [series.astype("string")]: the cells are text or missing already. *)
Definition astype_string (series : list Celula) : list Celula := series.

Definition str_strip (series : list Celula) : list Celula :=
  map (option_map Texto.strip) series.

Definition str_lower (series : list Celula) : list Celula :=
  map (option_map Texto.lower) series.

Definition _normalize_str_series (series : list Celula) : list Celula :=
  str_lower (str_strip (astype_string series)).

(** What the two helpers do to one cell. *)
Definition aparar (c : Celula) : Celula := option_map Texto.strip c.

Definition normalizar (c : Celula) : Celula :=
  option_map Texto.lower (option_map Texto.strip c).


(* ------------------------------------------------------------------ *)
(** * Data frames *)

(** Relative order: [subseq l1 l2] when [l1] is [l2] with some elements
    removed. *)
Inductive subseq (A : Type) : list A -> list A -> Prop :=
| subseq_nil : subseq [] []
| subseq_skip x l1 l2 : subseq l1 l2 -> subseq l1 (x :: l2)
| subseq_take x l1 l2 : subseq l1 l2 -> subseq (x :: l1) (x :: l2).

#[local] Hint Constructors subseq : core.

Section Frames.

Variable A : Type.

  (** Rows in order, each with its index label. *)
Definition DataFrame := list (nat * A).

Definition linhas (df : DataFrame) : list A := map snd df.

  (** [df[c]]: the values of a column. *)
Definition coluna (B : Type) (c : A -> B) (df : DataFrame) : list B :=
    map (fun ir => c (snd ir)) df.

  (** [df[c] = series], the series carrying the frame's own index. *)
Definition atribuir (B : Type) (set : B -> A -> A) (series : list B)
      (df : DataFrame) : DataFrame :=
    map (fun p => (fst (snd p), set (fst p) (snd (snd p)))) (combine series df).

  (** [df[mask]]: the rows where the boolean series holds. *)
Definition selecionar (mask : list bool) (df : DataFrame) : DataFrame :=
    map snd (filter fst (combine mask df)).

  (** [series.isna()] / [df.dropna(subset=...)]. *)
Definition dropna (isna : A -> bool) (df : DataFrame) : DataFrame :=
    selecionar (map negb (coluna isna df)) df.

  (** A fresh [RangeIndex] over rows. *)
Definition reindexar (l : list A) : DataFrame := combine (seq 0 (length l)) l.

  (** [df.reset_index(drop=True)]. *)
Definition reset_index (df : DataFrame) : DataFrame := reindexar (linhas df).

  (** [series.duplicated(keep="first")] on a key column. *)
Fixpoint duplicated (seen : list Z) (ks : list Z) : list bool :=
    match ks with
    | [] => []
    | k :: r => existsb (Z.eqb k) seen :: duplicated (k :: seen) r
    end.

  (** [df.drop_duplicates(subset=c)]. *)
Definition drop_duplicates (c : A -> Z) (df : DataFrame) : DataFrame :=
    selecionar (map negb (duplicated [] (coluna c df))) df.

  (** [df.head(n)]: the first [n] rows, or all but the last [-n] when [n] is
      negative. *)
Definition head (n : Z) (df : DataFrame) : DataFrame :=
    if (0 <=? n)%Z then firstn (Z.to_nat n) df
    else firstn (length df - Z.to_nat (- n)) df.

End Frames.

Definition mapear (A B : Type) (f : A -> B) (df : DataFrame A) : DataFrame B :=
  map (fun ir => (fst ir, f (snd ir))) df.

(** Rows whose key was not seen before, first occurrences only. *)
Fixpoint primeiras (A : Type) (c : A -> Z) (seen : list Z) (l : list A) : list A :=
    match l with
    | [] => []
    | x :: r =>
        if existsb (Z.eqb (c x)) seen then primeiras c (c x :: seen) r
        else x :: primeiras c (c x :: seen) r
    end.

(* ------------------------------------------------------------------ *)
(** * The three raw collections *)

(** A cell of a date column: text still to be parsed, a timestamp
    (nanoseconds since the epoch, as [datetime64[ns]]) or [NaT]. *)
Inductive Data : Type :=
| DTexto (s : string)
| DTimestamp (t : Z)
| NaT.

Definition isna_data (d : Data) : bool :=
  match d with NaT => true | _ => false end.

Definition isna_celula (c : Celula) : bool :=
  match c with None => true | Some _ => false end.

Module Usuario.
Record t : Type := mk { usuario_id : Z; nome : Celula; segmento : Celula }.
Definition set_nome (v : Celula) (u : t) : t := mk (usuario_id u) v (segmento u).
Definition set_segmento (v : Celula) (u : t) : t := mk (usuario_id u) (nome u) v.
End Usuario.

Module Conteudo.
Record t : Type := mk {
    conteudo_id : Z; autor_id : Z; categoria : Celula; data_publicacao : Data }.
Definition set_categoria (v : Celula) (c : t) : t :=
    mk (conteudo_id c) (autor_id c) v (data_publicacao c).
Definition set_data_publicacao (v : Data) (c : t) : t :=
    mk (conteudo_id c) (autor_id c) (categoria c) v.
End Conteudo.

(** [peso_interacao] is [None] while the column does not exist yet (a raw
    collection) or where the weight lookup gives [NaN]. *)
Module Interacao.
Record t : Type := mk {
    interacao_id : Z; conteudo_id : Z; usuario_id : Z;
    tipo_interacao : Celula; data_interacao : Data; peso_interacao : option Z }.
Definition set_tipo_interacao (v : Celula) (i : t) : t :=
    mk (interacao_id i) (conteudo_id i) (usuario_id i) v (data_interacao i)
       (peso_interacao i).
Definition set_data_interacao (v : Data) (i : t) : t :=
    mk (interacao_id i) (conteudo_id i) (usuario_id i) (tipo_interacao i) v
       (peso_interacao i).
Definition set_peso_interacao (v : option Z) (i : t) : t :=
    mk (interacao_id i) (conteudo_id i) (usuario_id i) (tipo_interacao i)
       (data_interacao i) v.
End Interacao.

(** A Python [dict] with text keys, in insertion order. *)
Definition Dict (V : Type) := list (string * V).

Fixpoint dict_get (V : Type) (d : Dict V) (k : string) : option V :=
  match d with
  | [] => None
  | (k', v) :: r => if String.eqb k' k then Some v else dict_get r k
  end.

Definition dict_contains (V : Type) (d : Dict V) (k : string) : bool :=
  match dict_get d k with Some _ => true | None => false end.

Definition INTERACTION_WEIGHTS : Dict Z :=
  [("curtida"%string, 1%Z); ("comentario"%string, 2%Z);
   ("compartilhamento"%string, 3%Z)].

(** [series.isin(d)]: membership in the keys; [<NA>] is in no dictionary. *)
Definition isin (V : Type) (series : list Celula) (d : Dict V) : list bool :=
  map (fun c => match c with Some s => dict_contains d s | None => false end)
      series.

(** [series.map(d)]: the value under each key, [NaN] where there is none. *)
Definition series_map (V : Type) (d : Dict V) (series : list Celula)
    : list (option V) :=
  map (fun c => match c with Some s => dict_get d s | None => None end) series.

(* ------------------------------------------------------------------ *)
(** * Record Cleaner *)

Section Limpeza.

  (** The date parser behind [pd.to_datetime]: the timestamp a text denotes,
      [None] where pandas cannot read it. *)
Variable parse_datetime : string -> option Z.

  (** [pd.to_datetime(series, errors="coerce")]. *)
Definition to_datetime_celula (d : Data) : Data :=
    match d with
    | DTexto s =>
        match parse_datetime s with Some t => DTimestamp t | None => NaT end
    | DTimestamp t => DTimestamp t
    | NaT => NaT
    end.

Definition to_datetime (series : list Data) : list Data :=
    map to_datetime_celula series.

Definition clean_usuarios (df : DataFrame Usuario.t) : DataFrame Usuario.t :=
    let cleaned := df in
    let cleaned :=
      atribuir Usuario.set_nome
               (str_strip (astype_string (coluna Usuario.nome cleaned))) cleaned in
    let cleaned :=
      atribuir Usuario.set_segmento
               (_normalize_str_series (coluna Usuario.segmento cleaned)) cleaned in
    let cleaned := reset_index (drop_duplicates Usuario.usuario_id cleaned) in
    cleaned.

Definition clean_conteudos (df : DataFrame Conteudo.t) : DataFrame Conteudo.t :=
    let cleaned := df in
    let cleaned :=
      atribuir Conteudo.set_categoria
               (_normalize_str_series (coluna Conteudo.categoria cleaned))
               cleaned in
    let cleaned :=
      atribuir Conteudo.set_data_publicacao
               (to_datetime (coluna Conteudo.data_publicacao cleaned)) cleaned in
    let cleaned :=
      dropna (fun c => isna_data (Conteudo.data_publicacao c)) cleaned in
    cleaned.

Definition clean_interacoes (df : DataFrame Interacao.t)
      : DataFrame Interacao.t :=
    let cleaned := df in
    let cleaned :=
      atribuir Interacao.set_tipo_interacao
               (_normalize_str_series (coluna Interacao.tipo_interacao cleaned))
               cleaned in
    let cleaned :=
      atribuir Interacao.set_data_interacao
               (to_datetime (coluna Interacao.data_interacao cleaned)) cleaned in
    let cleaned :=
      dropna (fun i => isna_data (Interacao.data_interacao i)) cleaned in
    let cleaned :=
      selecionar
        (isin (coluna Interacao.tipo_interacao cleaned) INTERACTION_WEIGHTS)
        cleaned in
    let cleaned :=
      atribuir Interacao.set_peso_interacao
               (series_map INTERACTION_WEIGHTS
                           (coluna Interacao.tipo_interacao cleaned))
               cleaned in
    reset_index cleaned.

  (** ** Row-wise reading of the cleaners *)

Definition limpar_usuario (u : Usuario.t) : Usuario.t :=
    Usuario.mk (Usuario.usuario_id u) (aparar (Usuario.nome u))
               (normalizar (Usuario.segmento u)).

Definition limpar_conteudo (c : Conteudo.t) : Conteudo.t :=
    Conteudo.mk (Conteudo.conteudo_id c) (Conteudo.autor_id c)
                (normalizar (Conteudo.categoria c))
                (to_datetime_celula (Conteudo.data_publicacao c)).

  (** The weight the table gives a (normalized) type cell. *)
Definition peso_do_tipo (c : Celula) : option Z :=
    match c with
    | Some s => dict_get INTERACTION_WEIGHTS s
    | None => None
    end.

Definition tipo_conhecido (c : Celula) : bool :=
    match c with
    | Some s => dict_contains INTERACTION_WEIGHTS s
    | None => false
    end.

Definition limpar_interacao (i : Interacao.t) : Interacao.t :=
    Interacao.mk (Interacao.interacao_id i) (Interacao.conteudo_id i)
                 (Interacao.usuario_id i)
                 (normalizar (Interacao.tipo_interacao i))
                 (to_datetime_celula (Interacao.data_interacao i))
                 (peso_do_tipo (normalizar (Interacao.tipo_interacao i))).

  (** In the spec's words: a row survives when its date parses and its
      normalized type is a key of the weight table. *)
Definition data_valida (d : Data) : bool :=
    negb (isna_data (to_datetime_celula d)).

Definition interacao_sobrevive (i : Interacao.t) : bool :=
    data_valida (Interacao.data_interacao i)
    && tipo_conhecido (normalizar (Interacao.tipo_interacao i)).

Definition conteudo_sobrevive (c : Conteudo.t) : bool :=
    data_valida (Conteudo.data_publicacao c).

End Limpeza.

(* ------------------------------------------------------------------ *)
(** * Engagement Dataset Builder *)

(** The exceptions the pipeline can raise. *)
Inductive Excecao : Type :=
| KeyError (chave : string)
| AttributeError
| TypeError.

Inductive Resultado (A : Type) : Type :=
| Ok (a : A)
| Raise (e : Excecao).

Arguments Ok {A} a.
Arguments Raise {A} e.

Definition bind (A B : Type) (m : Resultado A) (k : A -> Resultado B)
    : Resultado B :=
  match m with
  | Ok a => k a
  | Raise e => Raise e
  end.

Notation "x <- m ;; k" := (bind m (fun x => k))
  (at level 61, m at next level, right associativity).

(** The input map, one entry per collection; [None] when the key is not in
    the dictionary. *)
Record Datasets : Type := mkDatasets {
  ds_usuarios : option (DataFrame Usuario.t);
  ds_conteudos : option (DataFrame Conteudo.t);
  ds_interacoes : option (DataFrame Interacao.t) }.

(** [datasets[chave]]. *)
Definition getitem (A : Type) (entrada : option A) (chave : string)
    : Resultado A :=
  match entrada with
  | Some df => Ok df
  | None => Raise (KeyError chave)
  end.

Module Autor.
Record t : Type := mk {
  autor_id : Z; autor_nome : Celula; segmento_autor : Celula }.
End Autor.

Module Participante.
Record t : Type := mk {
  usuario_id : Z; usuario_nome : Celula; segmento_usuario : Celula }.
End Participante.

(** The two [rename(columns=...)] views of the cleaned users. *)
Definition autor_de (u : Usuario.t) : Autor.t :=
  Autor.mk (Usuario.usuario_id u) (Usuario.nome u) (Usuario.segmento u).

Definition participante_de (u : Usuario.t) : Participante.t :=
  Participante.mk (Usuario.usuario_id u) (Usuario.nome u) (Usuario.segmento u).

Definition rename_autores (usuarios : DataFrame Usuario.t) : DataFrame Autor.t :=
  mapear autor_de usuarios.

Definition rename_participantes (usuarios : DataFrame Usuario.t)
    : DataFrame Participante.t :=
  mapear participante_de usuarios.

Section Merge.

Variables L R : Type.

(** The right rows under a left key; a missing key matches nothing. *)
Definition correspondentes (on_r : R -> Z) (k : option Z) (right : list R)
    : list R :=
  match k with
  | Some k => filter (fun r => Z.eqb (on_r r) k) right
  | None => []
  end.

(** One left row joined: a row per matching right row, in the right frame's
    order, or a single row with the right columns missing. *)
Definition juntar_linha (on_r : R -> Z) (right : list R) (k : option Z) (l : L)
    : list (L * option R) :=
  match correspondentes on_r k right with
  | [] => [(l, None)]
  | ms => map (fun r => (l, Some r)) ms
  end.

(** [left.merge(right, on=..., how="left")]: left order kept, fresh index. *)
Definition merge_left (on_l : L -> option Z) (on_r : R -> Z)
    (left : DataFrame L) (right : DataFrame R) : DataFrame (L * option R) :=
  reindexar
    (flat_map (fun l => juntar_linha on_r (linhas right) (on_l l) l)
              (linhas left)).

End Merge.

(** A row after the three merges. *)
Definition Juncao : Type :=
  ((Interacao.t * option Conteudo.t) * option Autor.t) * option Participante.t.

Definition j_interacao (j : Juncao) : Interacao.t := fst (fst (fst j)).
Definition j_conteudo (j : Juncao) : option Conteudo.t := snd (fst (fst j)).
Definition j_autor (j : Juncao) : option Autor.t := snd (fst j).
Definition j_participante (j : Juncao) : option Participante.t := snd j.

(** The columns of the merged frame the builder reads. *)
Definition j_autor_id (j : Interacao.t * option Conteudo.t) : option Z :=
  option_map Conteudo.autor_id (snd j).

Definition j_usuario_id
    (j : (Interacao.t * option Conteudo.t) * option Autor.t) : option Z :=
  Some (Interacao.usuario_id (fst (fst j))).

Definition j_autor_nome (j : Juncao) : Celula :=
  match j_autor j with Some a => Autor.autor_nome a | None => None end.

Definition j_segmento_autor (j : Juncao) : Celula :=
  match j_autor j with Some a => Autor.segmento_autor a | None => None end.

Definition j_usuario_nome (j : Juncao) : Celula :=
  match j_participante j with
  | Some p => Participante.usuario_nome p
  | None => None
  end.

Definition j_segmento_usuario (j : Juncao) : Celula :=
  match j_participante j with
  | Some p => Participante.segmento_usuario p
  | None => None
  end.

Definition j_categoria (j : Juncao) : Celula :=
  match j_conteudo j with Some c => Conteudo.categoria c | None => None end.

Definition j_data_publicacao (j : Juncao) : Data :=
  match j_conteudo j with Some c => Conteudo.data_publicacao c | None => NaT end.

(** [dropna(subset=["autor_nome", "usuario_nome", "categoria",
    "data_publicacao"])]: a row goes when any of the four is missing. *)
Definition falta_essencial (j : Juncao) : bool :=
  isna_celula (j_autor_nome j) || isna_celula (j_usuario_nome j)
  || isna_celula (j_categoria j) || isna_data (j_data_publicacao j).

(** A row of the unified engagement dataset. *)
Module Engajamento.
Record t : Type := mk {
  interacao_id : Z; conteudo_id : Z; usuario_id : Z;
  tipo_interacao : Celula; data_interacao : Data; peso_interacao : option Z;
  autor_id : option Z; categoria : Celula; data_publicacao : Data;
  autor_nome : Celula; segmento_autor : Celula;
  usuario_nome : Celula; segmento_usuario : Celula;
  dia_interacao : option Z }.
End Engajamento.

Definition ns_por_dia : Z := 86400000000000.

(** The calendar day (days since the epoch) of a timestamp. *)
Definition dia_de (t : Z) : Z := (t / ns_por_dia)%Z.

Definition tipo_datetime (d : Data) : bool :=
  match d with DTexto _ => false | _ => true end.

(** The date of one cell; [NaT] has none. *)
Definition dia_da_data (d : Data) : option Z :=
  match d with
  | DTimestamp t => Some (dia_de t)
  | _ => None
  end.

(** [series.dt.date]: the accessor exists on datetime columns only. *)
Definition dt_date (series : list Data) : Resultado (list (option Z)) :=
  if forallb tipo_datetime series then Ok (map dia_da_data series)
  else Raise AttributeError.

(** The merged row with the new [dia_interacao] column. *)
Definition engajamento_de (dia : option Z) (j : Juncao) : Engajamento.t :=
  let i := j_interacao j in
  Engajamento.mk
    (Interacao.interacao_id i) (Interacao.conteudo_id i) (Interacao.usuario_id i)
    (Interacao.tipo_interacao i) (Interacao.data_interacao i)
    (Interacao.peso_interacao i)
    (option_map Conteudo.autor_id (j_conteudo j))
    (j_categoria j) (j_data_publicacao j)
    (j_autor_nome j) (j_segmento_autor j)
    (j_usuario_nome j) (j_segmento_usuario j)
    dia.

(** [dataset["dia_interacao"] = series]. *)
Definition atribuir_dia_interacao (series : list (option Z))
    (dataset : DataFrame Juncao) : DataFrame Engajamento.t :=
  map (fun p => (fst (snd p), engajamento_de (fst p) (snd (snd p))))
      (combine series dataset).

Section Construcao.

Variable parse_datetime : string -> option Z.

Definition build_engagement_dataset (datasets : Datasets)
    : Resultado (DataFrame Engajamento.t) :=
  u <- getitem (ds_usuarios datasets) "usuarios" ;;
  let usuarios := clean_usuarios u in
  c <- getitem (ds_conteudos datasets) "conteudos" ;;
  let conteudos := clean_conteudos parse_datetime c in
  i <- getitem (ds_interacoes datasets) "interacoes" ;;
  let interacoes := clean_interacoes parse_datetime i in
  let autores := rename_autores usuarios in
  let participantes := rename_participantes usuarios in
  let dataset :=
    reset_index
      (dropna falta_essencial
         (merge_left j_usuario_id Participante.usuario_id
            (merge_left j_autor_id Autor.autor_id
               (merge_left (fun i => Some (Interacao.conteudo_id i))
                           Conteudo.conteudo_id interacoes conteudos)
               autores)
            participantes)) in
  dias <- dt_date (coluna (fun j => Interacao.data_interacao (j_interacao j))
                          dataset) ;;
  Ok (atribuir_dia_interacao dias dataset).

End Construcao.

(** The three merges on cleaned collections, before any row is dropped. *)
Definition juntar (usuarios : DataFrame Usuario.t)
    (conteudos : DataFrame Conteudo.t) (interacoes : DataFrame Interacao.t)
    : DataFrame Juncao :=
  merge_left j_usuario_id Participante.usuario_id
    (merge_left j_autor_id Autor.autor_id
       (merge_left (fun i => Some (Interacao.conteudo_id i)) Conteudo.conteudo_id
                   interacoes conteudos)
       (rename_autores usuarios))
    (rename_participantes usuarios).

(** ** Row-wise reading of the builder *)



(** The output row a merged row becomes. *)
Definition linha_engajamento (j : Juncao) : Engajamento.t :=
  engajamento_de (dia_da_data (Interacao.data_interacao (j_interacao j))) j.



(* ------------------------------------------------------------------ *)
(** * Metrics Engine *)

(** A float rounded to 2 decimals, as its number of hundredths; quotients are
    taken exactly. *)
Definition Decimal2 : Type := Z.

(** [n / d] rounded to the nearest integer, halves to the even one. *)
Definition round_half_even (n d : Z) : Z :=
  let q := (n / d)%Z in
  let r := (n mod d)%Z in
  if (2 * r <? d)%Z then q
  else if (d <? 2 * r)%Z then (q + 1)%Z
  else if Z.even q then q else (q + 1)%Z.

(** [series.sum()]: missing values are skipped. *)
Fixpoint soma (series : list (option Z)) : Z :=
  match series with
  | [] => 0%Z
  | Some v :: r => (v + soma r)%Z
  | None :: r => soma r
  end.

(** [series.count()] on a column without missing values. *)
Definition contar (A : Type) (series : list A) : Z := Z.of_nat (length series).

Section Chaves.

Variable K : Type.
Variable K_eqb : K -> K -> bool.
Variable K_leb : K -> K -> bool.

(** The distinct values, in order of first appearance. *)
Fixpoint unique (l : list K) : list K :=
  match l with
  | [] => []
  | k :: r => k :: filter (fun k' => negb (K_eqb k' k)) (unique r)
  end.

Fixpoint inserir (k : K) (l : list K) : list K :=
  match l with
  | [] => [k]
  | x :: r => if K_leb k x then k :: l else x :: inserir k r
  end.

(** Group labels come out in ascending order. *)
Fixpoint ordenar_chaves (l : list K) : list K :=
  match l with
  | [] => []
  | k :: r => inserir k (ordenar_chaves r)
  end.

Fixpoint presentes (A : Type) (l : list (option A)) : list A :=
  match l with
  | [] => []
  | Some a :: r => a :: presentes r
  | None :: r => presentes r
  end.

(** [df.groupby(chave)]: the labels of the groups; rows with a missing key
    belong to no group. *)
Definition grupos (A : Type) (chave : A -> option K) (df : DataFrame A)
    : list K :=
  ordenar_chaves (unique (presentes (coluna chave df))).

(** The rows of one group, in frame order. *)
Definition grupo (A : Type) (chave : A -> option K) (k : K) (df : DataFrame A)
    : list A :=
  filter (fun r => match chave r with Some k' => K_eqb k' k | None => false end)
         (linhas df).

End Chaves.


Definition par_eqb (a b : Z * string) : bool :=
  Z.eqb (fst a) (fst b) && String.eqb (snd a) (snd b).

(** Tuples compare lexicographically. *)
Definition par_leb (a b : Z * string) : bool :=
  (fst a <? fst b)%Z || (Z.eqb (fst a) (fst b) && String.leb (snd a) (snd b)).


Record LinhaRanking : Type := mkLinhaRanking {
  rk_autor_id : Z; rk_autor_nome : string; score_engajamento : Z }.

Record LinhaCategoria : Type := mkLinhaCategoria {
  cat_categoria : string; cat_interacoes : Z; cat_score : Z }.

Record LinhaTimeline : Type := mkLinhaTimeline {
  tl_data_interacao : Z; tl_interacoes : Z; tl_score : Z }.

Record LinhaDistribuicao : Type := mkLinhaDistribuicao {
  dist_tipo_interacao : string; quantidade : Z; percentual : Decimal2 }.


(** The key of the author ranking: both columns present. *)
Definition chave_autor (r : Engajamento.t) : option (Z * string) :=
  match Engajamento.autor_id r, Engajamento.autor_nome r with
  | Some a, Some n => Some (a, n)
  | _, _ => None
  end.

(** The day a row falls on, for rows with a timestamp. *)
Definition dia_da_linha (r : Engajamento.t) : option Z :=
  match Engajamento.data_interacao r with
  | DTimestamp t => Some (dia_de t)
  | _ => None
  end.

(** The days from [lo] to [hi], both included. *)
Definition intervalo (lo hi : Z) : list Z :=
  map (fun i => (lo + Z.of_nat i)%Z) (seq 0 (Z.to_nat (hi - lo + 1))).

Definition minimo (x : Z) (l : list Z) : Z := fold_right Z.min x l.
Definition maximo (x : Z) (l : list Z) : Z := fold_right Z.max x l.

Definition TOP_N_DEFAULT : Z := 5.

Section Metricas.

(** [sort_values(by=..., ascending=False)] with pandas' default sort kind:
    the rows of the frame in some order of descending key. *)
Variable sort_values_desc : forall A : Type, (A -> Z) -> list A -> list A.

Definition top_autores_por_engajamento (df : DataFrame Engajamento.t)
    (top_n : option Z) : DataFrame LinhaRanking :=
  let top_n := match top_n with Some n => n | None => TOP_N_DEFAULT end in
  let ranking :=
    reindexar
      (map (fun k => mkLinhaRanking (fst k) (snd k)
                       (soma (map Engajamento.peso_interacao
                                  (grupo par_eqb chave_autor k df))))
           (grupos par_eqb par_leb chave_autor df)) in
  reset_index
    (head top_n
       (sort_values_desc (fun ir => score_engajamento (snd ir)) ranking)).

Definition interacoes_por_categoria (df : DataFrame Engajamento.t)
    : DataFrame LinhaCategoria :=
  reset_index
    (sort_values_desc (fun ir => cat_score (snd ir))
       (reindexar
          (map (fun k =>
                  let g := grupo String.eqb Engajamento.categoria k df in
                  mkLinhaCategoria k
                    (contar (map Engajamento.interacao_id g))
                    (soma (map Engajamento.peso_interacao g)))
               (grupos String.eqb String.leb Engajamento.categoria df)))).

Definition distribuicao_tipo_interacao (df : DataFrame Engajamento.t)
    : DataFrame LinhaDistribuicao :=
  let total := contar (coluna Engajamento.interacao_id df) in
  let distribuicao :=
    reindexar
      (map (fun k =>
              let q := contar (map Engajamento.interacao_id
                                   (grupo String.eqb Engajamento.tipo_interacao
                                          k df)) in
              mkLinhaDistribuicao k q
                (if Z.eqb total 0 then 0%Z
                 else round_half_even (q * 100 * 100) total))
           (grupos String.eqb String.leb Engajamento.tipo_interacao df)) in
  reset_index (sort_values_desc (fun ir => quantidade (snd ir)) distribuicao).

End Metricas.

(** [set_index("data_interacao").resample("D").agg(...).reset_index()]: one
    bin per day from the first to the last day seen; a column that is not of
    datetime type cannot be resampled. *)
Definition timeline_engajamento (df : DataFrame Engajamento.t)
    : Resultado (DataFrame LinhaTimeline) :=
  if forallb tipo_datetime (coluna Engajamento.data_interacao df) then
    match presentes (coluna dia_da_linha df) with
    | [] => Ok []
    | d :: ds =>
        Ok (reindexar
              (map (fun dia =>
                      let g := grupo Z.eqb dia_da_linha dia df in
                      mkLinhaTimeline (dia * ns_por_dia)
                        (contar (map Engajamento.interacao_id g))
                        (soma (map Engajamento.peso_interacao g)))
                   (intervalo (minimo d ds) (maximo d ds))))
    end
  else Raise TypeError.

(** ** Two sorts that meet the contract of [sort_values] *)

Fixpoint inserir_desc (A : Type) (key : A -> Z) (x : A) (l : list A) : list A :=
  match l with
  | [] => [x]
  | y :: r =>
      if (key y <=? key x)%Z then x :: l else y :: inserir_desc key x r
  end.

(** Insertion sort by descending key; rows with equal keys keep their
    order. *)
Fixpoint ordenar_desc_estavel (A : Type) (key : A -> Z) (l : list A) : list A :=
  match l with
  | [] => []
  | x :: r => inserir_desc key x (ordenar_desc_estavel key r)
  end.

(** Descending as well, rows with equal keys in reverse order. *)
Definition ordenar_desc_inverso (A : Type) (key : A -> Z) (l : list A)
    : list A :=
  ordenar_desc_estavel key (rev l).

(** What [sort_values(ascending=False)] promises: the same rows, keys
    descending. *)
Definition contrato_ordenacao
    (sort : forall A : Type, (A -> Z) -> list A -> list A) : Prop :=
  (forall (A : Type) (key : A -> Z) (l : list A), Permutation (sort A key l) l)
  /\ (forall (A : Type) (key : A -> Z) (l : list A),
        StronglySorted (fun a b => (key b <= key a)%Z) (sort A key l)).

(** [df.head(n)] on the rows. *)
Definition head_linhas (A : Type) (n : Z) (l : list A) : list A :=
  if (0 <=? n)%Z then firstn (Z.to_nat n) l
  else firstn (length l - Z.to_nat (- n)) l.

(** The ranking before it is sorted and cut: one row per author. *)
Definition ranking_por_autor (df : DataFrame Engajamento.t) : list LinhaRanking :=
  map (fun k => mkLinhaRanking (fst k) (snd k)
                  (soma (map Engajamento.peso_interacao
                             (grupo par_eqb chave_autor k df))))
      (grupos par_eqb par_leb chave_autor df).

Fixpoint somatorio (l : list Z) : Z :=
  match l with
  | [] => 0%Z
  | x :: r => (x + somatorio r)%Z
  end.

(** The distribution before it is sorted: one row per interaction type. *)
Definition distribuicao_por_tipo (df : DataFrame Engajamento.t)
    : list LinhaDistribuicao :=
  let total := contar (coluna Engajamento.interacao_id df) in
  map (fun k =>
         let q := contar (map Engajamento.interacao_id
                              (grupo String.eqb Engajamento.tipo_interacao
                                     k df)) in
         mkLinhaDistribuicao k q
           (if Z.eqb total 0 then 0%Z
            else round_half_even (q * 100 * 100) total))
      (grupos String.eqb String.leb Engajamento.tipo_interacao df).

(* ------------------------------------------------------------------ *)
(** * A date parser and sample collections *)

(** A parser for ISO calendar dates, [YYYY-MM-DD], read as midnight of that
    day; every other text is unreadable.  The theorems hold for any parser;
    this one serves the examples. *)
Module Iso.

Local Open Scope Z_scope.

Definition digito (c : ascii) : option Z :=
  let n := Z.of_N (N_of_ascii c) in
  if (48 <=? n) && (n <=? 57) then Some (n - 48) else None.

Fixpoint numero (acc : Z) (cs : list ascii) : option Z :=
  match cs with
  | [] => Some acc
  | c :: r =>
      match digito c with
      | Some d => numero (acc * 10 + d) r
      | None => None
      end
  end.

Definition bissexto (y : Z) : bool :=
  ((y mod 4 =? 0) && negb (y mod 100 =? 0)) || (y mod 400 =? 0).

Definition dias_no_mes (y m : Z) : Z :=
  if m =? 2 then (if bissexto y then 29 else 28)
  else if (m =? 4) || (m =? 6) || (m =? 9) || (m =? 11) then 30 else 31.

(** Days from 1970-01-01 to the given civil date. *)
Definition dias_desde_epoca (y m d : Z) : Z :=
  let y' := if m <=? 2 then y - 1 else y in
  let era := y' / 400 in
  let yoe := y' - era * 400 in
  let mp := if 2 <? m then m - 3 else m + 9 in
  let doy := (153 * mp + 2) / 5 + d - 1 in
  let doe := yoe * 365 + yoe / 4 - yoe / 100 + doy in
  era * 146097 + doe - 719468.

Definition parse (s : string) : option Z :=
  match list_ascii_of_string s with
  | [y1; y2; y3; y4; h1; m1; m2; h2; d1; d2] =>
      match numero 0 [y1; y2; y3; y4], numero 0 [m1; m2], numero 0 [d1; d2] with
      | Some y, Some m, Some d =>
          if Ascii.eqb h1 "-" && Ascii.eqb h2 "-"
             && (1 <=? m) && (m <=? 12) && (1 <=? d) && (d <=? dias_no_mes y m)
          then Some (dias_desde_epoca y m d * ns_por_dia)
          else None
      | _, _, _ => None
      end
  | _ => None
  end.

End Iso.

Module Exemplo.

Local Open Scope Z_scope.
Local Open Scope string_scope.

Definition frame (A : Type) (l : list A) : DataFrame A := reindexar l.

Definition usuarios : DataFrame Usuario.t :=
  frame [Usuario.mk 1 (Some " Ana ") (Some "Creator ");
         Usuario.mk 2 (Some "Bruno") (Some "fan");
         Usuario.mk 1 (Some "Ana Duplicada") (Some "fan");
         Usuario.mk 3 None (Some "fan")].

Definition conteudos : DataFrame Conteudo.t :=
  frame [Conteudo.mk 101 1 (Some " Video") (DTexto "2025-10-01");
         Conteudo.mk 102 2 (Some "texto") (DTexto "2025-10-02");
         Conteudo.mk 103 2 (Some "texto") (DTexto "ontem")].

Definition interacoes : DataFrame Interacao.t :=
  frame [Interacao.mk 1 101 1 (Some "curtida") (DTexto "2025-10-01") None;
         Interacao.mk 2 101 2 (Some " Compartilhamento") (DTexto "2025-10-01") None;
         Interacao.mk 3 102 1 (Some "comentario") (DTexto "2025-10-04") None;
         Interacao.mk 4 102 2 (Some "poke") (DTexto "2025-10-02") None;
         Interacao.mk 5 999 2 (Some "curtida") (DTexto "2025-10-02") None;
         Interacao.mk 6 101 3 (Some "curtida") (DTexto "2025-10-02") None;
         Interacao.mk 7 102 2 (Some "curtida") (DTexto "32/13/2025") None].

Definition datasets : Datasets :=
  mkDatasets (Some usuarios) (Some conteudos) (Some interacoes).




(** The unified dataset of the sample collections. *)
Definition engajamento : DataFrame Engajamento.t :=
  match build_engagement_dataset Iso.parse datasets with
  | Ok df => df
  | Raise _ => []
  end.

End Exemplo.

(* ------------------------------------------------------------------ *)
(** * The metrics bundle *)

(** The category breakdown before it is sorted: one row per category. *)
Definition tabela_por_categoria (df : DataFrame Engajamento.t)
    : list LinhaCategoria :=
  map (fun k =>
         let g := grupo String.eqb Engajamento.categoria k df in
         mkLinhaCategoria k
           (contar (map Engajamento.interacao_id g))
           (soma (map Engajamento.peso_interacao g)))
      (grupos String.eqb String.leb Engajamento.categoria df).


Section Orquestracao.

Variable sort_values_desc : forall A : Type, (A -> Z) -> list A -> list A.


End Orquestracao.


(** A row of the unified dataset with nothing essential missing. *)
Definition linha_completa (r : Engajamento.t) : Prop :=
  (exists s w,
      Engajamento.tipo_interacao r = Some s
      /\ dict_get INTERACTION_WEIGHTS s = Some w
      /\ Engajamento.peso_interacao r = Some w)
  /\ (exists t,
        Engajamento.data_interacao r = DTimestamp t
        /\ Engajamento.dia_interacao r = Some (dia_de t))
  /\ (exists a, Engajamento.autor_id r = Some a)
  /\ Engajamento.autor_nome r <> None
  /\ Engajamento.usuario_nome r <> None
  /\ Engajamento.categoria r <> None
  /\ (exists t, Engajamento.data_publicacao r = DTimestamp t).

(** A row whose interaction date is a timestamp. *)
Definition com_timestamp (r : Engajamento.t) : Prop :=
  exists t, Engajamento.data_interacao r = DTimestamp t.

(* ------------------------------------------------------------------ *)
(** * Ingestion *)

(** [DataIngestionError], by the message it carries; [P] is the type of
    paths. *)
Inductive DataIngestionError (P : Type) : Type :=
| ArquivoNaoEncontrado (csv_path : P)
| FalhaAoLer (csv_path : P) (exc : string)
| ArquivoVazio (csv_path : P).

Arguments ArquivoNaoEncontrado {P} csv_path.
Arguments FalhaAoLer {P} csv_path exc.
Arguments ArquivoVazio {P} csv_path.

Inductive Carga (P A : Type) : Type :=
| Carregado (a : A)
| Falha (e : DataIngestionError P).

Arguments Carregado {P A} a.
Arguments Falha {P A} e.

Definition carga_bind (P A B : Type) (m : Carga P A) (k : A -> Carga P B)
    : Carga P B :=
  match m with
  | Carregado a => k a
  | Falha e => Falha e
  end.

(** Three loads in a row, stopping at the first failure. *)
Definition tres_cargas (P : Type) (lu : Carga P (DataFrame Usuario.t))
    (lc : Carga P (DataFrame Conteudo.t)) (li : Carga P (DataFrame Interacao.t))
    : Carga P Datasets :=
  carga_bind lu (fun u =>
  carga_bind lc (fun c =>
  carga_bind li (fun i =>
  Carregado (mkDatasets (Some u) (Some c) (Some i))))).

Record DatasetConfig : Type := mkDatasetConfig {
  filename : string;
  dtype_map : list (string * string);
  parse_dates : list string }.

(** The three entries of [DATASETS], in the dictionary's order. *)
Definition DATASETS_usuarios : DatasetConfig :=
  mkDatasetConfig "usuarios.csv"
    [("usuario_id", "int64"); ("nome", "string"); ("segmento", "string")]%string
    [].

Definition DATASETS_conteudos : DatasetConfig :=
  mkDatasetConfig "conteudos.csv"
    [("conteudo_id", "int64"); ("autor_id", "int64");
     ("categoria", "string")]%string
    ["data_publicacao"%string].

Definition DATASETS_interacoes : DatasetConfig :=
  mkDatasetConfig "interacoes.csv"
    [("interacao_id", "int64"); ("conteudo_id", "int64");
     ("usuario_id", "int64"); ("tipo_interacao", "string")]%string
    ["data_interacao"%string].

Section Ingestao.

(** Paths and the file system, as [pathlib] and [pandas] present them. *)
Variable Path : Type.
Variable path_of : string -> Path.
Variable is_absolute : Path -> bool.
Variable truediv : Path -> Path -> Path.
Variable DEFAULT_RAW_DIR : Path.
Variable path_exists : Path -> bool.

(** [pd.read_csv(csv_path, dtype=..., parse_dates=...)] for each of the three
    schemas: the frame read, or the text of the exception raised. *)
Variable read_csv_usuarios :
  Path -> DatasetConfig -> string + DataFrame Usuario.t.
Variable read_csv_conteudos :
  Path -> DatasetConfig -> string + DataFrame Conteudo.t.
Variable read_csv_interacoes :
  Path -> DatasetConfig -> string + DataFrame Interacao.t.

Definition _resolve_path (filename : string) (base_dir : option Path) : Path :=
  let base := match base_dir with Some b => b | None => DEFAULT_RAW_DIR end in
  let candidate := path_of filename in
  if negb (is_absolute candidate) then truediv base candidate else candidate.

(** [df.empty]. *)
Definition empty (A : Type) (df : DataFrame A) : bool :=
  match df with [] => true | _ :: _ => false end.

Definition load_csv_dataset (A : Type)
    (read_csv : Path -> DatasetConfig -> string + DataFrame A)
    (dataset : DatasetConfig) (base_dir : option Path)
    : Carga Path (DataFrame A) :=
  let csv_path := _resolve_path (filename dataset) base_dir in
  if negb (path_exists csv_path) then Falha (ArquivoNaoEncontrado csv_path)
  else
    match read_csv csv_path dataset with
    | inl exc => Falha (FalhaAoLer csv_path exc)
    | inr df =>
        if empty df then Falha (ArquivoVazio csv_path) else Carregado df
    end.

Definition load_all_datasets (base_dir : option Path) : Carga Path Datasets :=
  carga_bind (load_csv_dataset read_csv_usuarios DATASETS_usuarios base_dir)
    (fun u =>
  carga_bind (load_csv_dataset read_csv_conteudos DATASETS_conteudos base_dir)
    (fun c =>
  carga_bind (load_csv_dataset read_csv_interacoes DATASETS_interacoes base_dir)
    (fun i =>
  Carregado (mkDatasets (Some u) (Some c) (Some i))))).

End Ingestao.

(** A small file system for the examples: paths are texts, absolute when
    they start with a slash; the three files are there. *)
Module Disco.

Definition is_absolute (p : string) : bool :=
  match p with
  | String c _ => Ascii.eqb c "/"
  | EmptyString => false
  end.

Definition truediv (base p : string) : string := (base ++ "/" ++ p)%string.







End Disco.

(* ------------------------------------------------------------------ *)
(** * Shapes of normalized text *)

Module Forma.

(** Only white space. *)
Fixpoint so_espacos (s : string) : bool :=
  match s with
  | EmptyString => true
  | String c r => Texto.is_space c && so_espacos r
  end.




End Forma.

(** Users with pairwise different ids. *)
Definition usuarios_sem_repeticao : DataFrame Usuario.t :=
  reindexar [Usuario.mk 1 (Some " Ana ") (Some "Creator ");
             Usuario.mk 2 (Some "Bruno") (Some "fan");
             Usuario.mk 3 None (Some "fan")]%string.

(* ------------------------------------------------------------------ *)
(** * Markdown tables *)

(** [sep.join(l)]. *)
Fixpoint join (sep : string) (l : list string) : string :=
  match l with
  | [] => EmptyString
  | x :: r =>
      match r with
      | [] => x
      | _ :: _ => (x ++ sep ++ join sep r)%string
      end
  end.

Definition nova_linha : ascii := ascii_of_nat 10.

Definition NL : string := String nova_linha EmptyString.

(** [s.split("\n")]. *)
Fixpoint split_linhas (s : string) : list string :=
  match s with
  | EmptyString => [EmptyString]
  | String c r =>
      if Ascii.eqb c nova_linha then EmptyString :: split_linhas r
      else
        match split_linhas r with
        | x :: xs => String c x :: xs
        | [] => [String c EmptyString]
        end
  end.

(** No line break inside. *)
Fixpoint sem_quebra (s : string) : bool :=
  match s with
  | EmptyString => true
  | String c r => negb (Ascii.eqb c nova_linha) && sem_quebra r
  end.

(** A list evaluated in order, stopping at the first exception. *)
Fixpoint em_ordem (A B : Type) (f : A -> Resultado B) (l : list A)
    : Resultado (list B) :=
  match l with
  | [] => Ok []
  | x :: r => y <- f x ;; ys <- em_ordem f r ;; Ok (y :: ys)
  end.

Section Markdown.

Variable A : Type.

(** [str(row[h])]: the text of the cell of a row under a column name, [None]
    when the row has no such column. *)
Variable celula : A -> string -> option string.

Definition str_row_getitem (row : A) (h : string) : Resultado string :=
  match celula row h with
  | Some t => Ok t
  | None => Raise (KeyError h)
  end.

Definition dataframe_to_markdown (df : DataFrame A) (headers : list string)
    : Resultado string :=
  let header_row := ("| " ++ join " | " headers ++ " |")%string in
  let separator :=
    ("| " ++ join " | " (map (fun _ => "---"%string) headers) ++ " |")%string in
  content_rows <-
    em_ordem (fun row =>
                cs <- em_ordem (str_row_getitem row) headers ;;
                Ok ("| " ++ join " | " cs ++ " |")%string)
             (linhas df) ;;
  Ok (join NL (header_row :: separator :: content_rows)).

(** The line of one row, given the texts of its cells. *)
Definition linha_markdown (cs : list string) : string :=
  ("| " ++ join " | " cs ++ " |")%string.

End Markdown.

(** [str(n)] for an integer. *)
Fixpoint str_digitos (fuel : nat) (n : Z) (acc : string) : string :=
  match fuel with
  | O => acc
  | S f =>
      let acc' := String (ascii_of_N (Z.to_N (48 + n mod 10))) acc in
      if (n <? 10)%Z then acc' else str_digitos f (n / 10) acc'
  end.

Definition str_int (z : Z) : string :=
  let fuel := S (Z.to_nat (Z.log2 (Z.abs z))) in
  if (z <? 0)%Z then String "-" (str_digitos fuel (- z) EmptyString)
  else str_digitos fuel z EmptyString.

(** The cells of a category row under the headers "Categoria" and "Score",
    as after the report's renaming. *)
Definition celula_categoria (row : LinhaCategoria) (h : string) : option string :=
  if String.eqb h "Categoria" then Some (cat_categoria row)
  else if String.eqb h "Score" then Some (str_int (cat_score row))
  else None.
(* ------------------------------------------------------------------ *)
(** * Facts about text normalization *)

Module TextoFatos.
Import Texto.

Lemma is_space_lower_char c : is_space (lower_char c) = is_space c.
  Proof. destruct c as [[] [] [] [] [] [] [] []]; reflexivity. Qed.

Lemma lower_char_idem c : lower_char (lower_char c) = lower_char c.
  Proof. destruct c as [[] [] [] [] [] [] [] []]; reflexivity. Qed.

Lemma lower_idem s : lower (lower s) = lower s.
  Proof.
    induction s as [|c r IH]; simpl; [reflexivity|].
    now rewrite lower_char_idem, IH.
  Qed.

Lemma lstrip_head s : sem_espaco_inicial (lstrip s) = true.
  Proof.
    induction s as [|c r IH]; simpl; [reflexivity|].
    destruct (is_space c) eqn:E; [exact IH|]. simpl. now rewrite E.
  Qed.

Lemma lstrip_fixed s : sem_espaco_inicial s = true -> lstrip s = s.
  Proof.
    destruct s as [|c r]; simpl; [reflexivity|].
    intros H. apply negb_true_iff in H. now rewrite H.
  Qed.

Lemma rstrip_head s :
    sem_espaco_inicial s = true -> sem_espaco_inicial (rstrip s) = true.
  Proof.
    destruct s as [|c r]; simpl; [reflexivity|].
    intros H. apply negb_true_iff in H.
    destruct (rstrip r); rewrite ?H; simpl; now rewrite H.
  Qed.

Lemma rstrip_idem s : rstrip (rstrip s) = rstrip s.
  Proof.
    induction s as [|c r IH]; simpl; [reflexivity|].
    destruct (rstrip r) as [|c' r'] eqn:E.
    - destruct (is_space c) eqn:Ec; simpl; [reflexivity|]. now rewrite Ec.
    - simpl in *. now rewrite IH.
  Qed.

Lemma strip_idem s : strip (strip s) = strip s.
  Proof.
    unfold strip.
    rewrite (lstrip_fixed (rstrip (lstrip s))).
    - apply rstrip_idem.
    - apply rstrip_head, lstrip_head.
  Qed.

Lemma lstrip_lower s : lstrip (lower s) = lower (lstrip s).
  Proof.
    induction s as [|c r IH]; simpl; [reflexivity|].
    rewrite is_space_lower_char. now destruct (is_space c).
  Qed.

Lemma rstrip_lower s : rstrip (lower s) = lower (rstrip s).
  Proof.
    induction s as [|c r IH]; simpl; [reflexivity|].
    rewrite IH, is_space_lower_char.
    destruct (rstrip r); simpl; [now destruct (is_space c)|reflexivity].
  Qed.

Lemma strip_lower s : strip (lower s) = lower (strip s).
  Proof. unfold strip. now rewrite lstrip_lower, rstrip_lower. Qed.

End TextoFatos.

Lemma str_strip_map s : str_strip (astype_string s) = map aparar s.
Proof. reflexivity. Qed.

Lemma _normalize_str_series_map s : _normalize_str_series s = map normalizar s.
Proof.
  unfold _normalize_str_series, str_lower, str_strip, astype_string.
  now rewrite map_map.
Qed.

Lemma aparar_idem c : aparar (aparar c) = aparar c.
Proof.
  destruct c; unfold aparar; cbn [option_map]; [|reflexivity].
  now rewrite TextoFatos.strip_idem.
Qed.

Lemma normalizar_idem c : normalizar (normalizar c) = normalizar c.
Proof.
  destruct c as [s|]; unfold normalizar; cbn [option_map]; [|reflexivity].
  now rewrite TextoFatos.strip_lower, TextoFatos.lower_idem, TextoFatos.strip_idem.
Qed.

(* ------------------------------------------------------------------ *)
(** * Row-wise reading of the frame operations *)

Section FramesRows.

Variables A B : Type.

Lemma combine_map_self (C : Type) (h : A -> C) (l : list A) :
    combine (map h l) l = map (fun x => (h x, x)) l.
  Proof. induction l as [|x l IH]; simpl; [reflexivity|now rewrite IH]. Qed.

Lemma linhas_mapear (f : A -> B) df : linhas (mapear f df) = map f (linhas df).
  Proof. unfold linhas, mapear. now rewrite !map_map. Qed.

Lemma linhas_reindexar (l : list A) : linhas (reindexar l) = l.
  Proof.
    unfold linhas, reindexar.
    assert (H : forall n, map snd (combine (seq n (length l)) l) = l).
    { induction l as [|x l IH]; intros n; simpl; [reflexivity|now rewrite IH]. }
    apply H.
  Qed.

Lemma linhas_reset_index (df : DataFrame A) : linhas (reset_index df) = linhas df.
  Proof. apply linhas_reindexar. Qed.

Lemma length_linhas (df : DataFrame A) : length (linhas df) = length df.
  Proof. apply length_map. Qed.

End FramesRows.


Section Primeiras.

Variable A : Type.

Lemma existsb_eqb_In k seen : existsb (Z.eqb k) seen = true <-> In k seen.
  Proof.
    rewrite existsb_exists. split.
    - intros (y & Hy & E). apply Z.eqb_eq in E. now subst.
    - intros H. exists k. split; [exact H|apply Z.eqb_refl].
  Qed.

Lemma existsb_eqb_notIn k seen : existsb (Z.eqb k) seen = false <-> ~ In k seen.
  Proof.
    rewrite <- existsb_eqb_In. destruct (existsb (Z.eqb k) seen); split; congruence.
  Qed.

Variable c : A -> Z.

Lemma primeiras_subseq seen l : subseq (primeiras c seen l) l.
  Proof.
    revert seen. induction l as [|x l IH]; intros seen; simpl; [constructor|].
    destruct (existsb (Z.eqb (c x)) seen); auto.
  Qed.

Lemma primeiras_fresh seen l k :
    In k (map c (primeiras c seen l)) -> ~ In k seen /\ In k (map c l).
  Proof.
    revert seen. induction l as [|x l IH]; intros seen; simpl; [tauto|].
    destruct (existsb (Z.eqb (c x)) seen) eqn:E.
    - intros H. apply IH in H. simpl in H. tauto.
    - simpl. intros [H|H].
      + subst. apply existsb_eqb_notIn in E. tauto.
      + apply IH in H. simpl in H. tauto.
  Qed.

Lemma primeiras_NoDup seen l : NoDup (map c (primeiras c seen l)).
  Proof.
    revert seen. induction l as [|x l IH]; intros seen; simpl; [constructor|].
    destruct (existsb (Z.eqb (c x)) seen) eqn:E; [apply IH|].
    simpl. constructor; [|apply IH].
    intros H. apply primeiras_fresh in H. simpl in H. tauto.
  Qed.



Lemma primeiras_fixed seen l :
    NoDup (map c l) -> (forall k, In k (map c l) -> ~ In k seen) ->
    primeiras c seen l = l.
  Proof.
    revert seen. induction l as [|x l IH]; intros seen Hnd Hs; simpl; [reflexivity|].
    inversion Hnd as [|? ? Hx Hnd']; subst.
    assert (E : existsb (Z.eqb (c x)) seen = false).
    { apply existsb_eqb_notIn, Hs. now left. }
    rewrite E. f_equal. apply IH; [exact Hnd'|].
    intros k Hk [<-|H]; [contradiction|]. apply (Hs k); [now right|exact H].
  Qed.

End Primeiras.

Lemma filter_map_comm (A B : Type) (f : A -> B) (p : B -> bool) (l : list A) :
  filter p (map f l) = map f (filter (fun x => p (f x)) l).
Proof.
  induction l as [|x l IH]; simpl; [reflexivity|].
  destruct (p (f x)); simpl; now rewrite IH.
Qed.

Lemma filter_filter_andb (A : Type) (p q : A -> bool) (l : list A) :
  filter q (filter p l) = filter (fun x => p x && q x) l.
Proof.
  induction l as [|x l IH]; simpl; [reflexivity|].
  destruct (p x); simpl; [|exact IH]. destruct (q x); simpl; now rewrite IH.
Qed.

Section FramesRows2.

Variable A : Type.

Lemma atribuir_coluna (B C : Type) (set : C -> A -> A) (g : B -> C)
      (c : A -> B) (df : DataFrame A) :
    atribuir set (map g (coluna c df)) df = mapear (fun r => set (g (c r)) r) df.
  Proof.
    unfold atribuir, coluna, mapear. rewrite map_map, combine_map_self, map_map.
    reflexivity.
  Qed.

Lemma selecionar_coluna (B : Type) (p : B -> bool) (c : A -> B)
      (df : DataFrame A) :
    selecionar (map p (coluna c df)) df = filter (fun ir => p (c (snd ir))) df.
  Proof.
    unfold selecionar, coluna. rewrite map_map, combine_map_self.
    induction df as [|x l IH]; simpl; [reflexivity|].
    destruct (p (c (snd x))); simpl; now rewrite IH.
  Qed.

Lemma dropna_filter (isna : A -> bool) (df : DataFrame A) :
    dropna isna df = filter (fun ir => negb (isna (snd ir))) df.
  Proof. unfold dropna. apply (selecionar_coluna negb isna). Qed.

Lemma linhas_filter (p : A -> bool) (df : DataFrame A) :
    linhas (filter (fun ir => p (snd ir)) df) = filter p (linhas df).
  Proof.
    unfold linhas. induction df as [|x l IH]; simpl; [reflexivity|].
    destruct (p (snd x)); simpl; now rewrite IH.
  Qed.

Lemma drop_duplicates_primeiras (c : A -> Z) (df : DataFrame A) :
    drop_duplicates c df = primeiras (fun ir => c (snd ir)) [] df.
  Proof.
    unfold drop_duplicates, selecionar, coluna. generalize (@nil Z) as seen.
    induction df as [|x l IH]; intros seen; simpl; [reflexivity|].
    destruct (existsb (Z.eqb (c (snd x))) seen); simpl; now rewrite IH.
  Qed.

Lemma linhas_primeiras (c : A -> Z) seen (df : DataFrame A) :
    linhas (primeiras (fun ir => c (snd ir)) seen df) = primeiras c seen (linhas df).
  Proof.
    unfold linhas. revert seen. induction df as [|x l IH]; intros seen; simpl.
    - reflexivity.
    - destruct (existsb (Z.eqb (c (snd x))) seen); simpl; now rewrite IH.
  Qed.

End FramesRows2.


(* ------------------------------------------------------------------ *)
(** * Row-wise reading of the cleaners *)

Section LimpezaFatos.

Variable parse : string -> option Z.

Lemma to_datetime_celula_idem d :
  to_datetime_celula parse (to_datetime_celula parse d) = to_datetime_celula parse d.
Proof.
  destruct d as [s| |]; simpl; [|reflexivity|reflexivity].
  now destruct (parse s).
Qed.

Lemma data_valida_to_datetime d :
  data_valida parse (to_datetime_celula parse d) = data_valida parse d.
Proof. unfold data_valida. now rewrite to_datetime_celula_idem. Qed.

Lemma limpar_usuario_idem u : limpar_usuario (limpar_usuario u) = limpar_usuario u.
Proof.
  unfold limpar_usuario; simpl. now rewrite aparar_idem, normalizar_idem.
Qed.

Lemma limpar_conteudo_idem c :
  limpar_conteudo parse (limpar_conteudo parse c) = limpar_conteudo parse c.
Proof.
  unfold limpar_conteudo; simpl.
  now rewrite normalizar_idem, to_datetime_celula_idem.
Qed.

Lemma limpar_interacao_idem i :
  limpar_interacao parse (limpar_interacao parse i) = limpar_interacao parse i.
Proof.
  unfold limpar_interacao; simpl.
  now rewrite normalizar_idem, to_datetime_celula_idem.
Qed.

Lemma mapear_mapear (A B C : Type) (f : A -> B) (g : B -> C) (df : DataFrame A) :
  mapear g (mapear f df) = mapear (fun x => g (f x)) df.
Proof. unfold mapear. now rewrite map_map. Qed.

Lemma clean_usuarios_rows df :
  clean_usuarios df
  = reindexar (primeiras Usuario.usuario_id [] (map limpar_usuario (linhas df))).
Proof.
  unfold clean_usuarios.
  rewrite str_strip_map, atribuir_coluna.
  rewrite _normalize_str_series_map, atribuir_coluna, mapear_mapear.
  unfold reset_index.
  rewrite drop_duplicates_primeiras, linhas_primeiras, linhas_mapear.
  reflexivity.
Qed.

Lemma clean_conteudos_rows df :
  clean_conteudos parse df
  = filter (fun ir => conteudo_sobrevive parse (snd ir))
           (mapear (limpar_conteudo parse) df).
Proof.
  unfold clean_conteudos.
  rewrite _normalize_str_series_map, atribuir_coluna.
  unfold to_datetime. rewrite atribuir_coluna, mapear_mapear, dropna_filter.
  unfold mapear, conteudo_sobrevive.
  induction df as [|[i [cid aid cat d]] l IH]; simpl; [reflexivity|].
  rewrite data_valida_to_datetime. unfold data_valida at 1.
  destruct (isna_data (to_datetime_celula parse d)); simpl; now rewrite <- IH.
Qed.

Lemma clean_interacoes_rows df :
  clean_interacoes parse df
  = reindexar (map (limpar_interacao parse)
                   (filter (interacao_sobrevive parse) (linhas df))).
Proof.
  unfold clean_interacoes.
  rewrite _normalize_str_series_map, atribuir_coluna.
  unfold to_datetime. rewrite atribuir_coluna, mapear_mapear, dropna_filter.
  unfold isin. rewrite selecionar_coluna.
  unfold series_map. rewrite atribuir_coluna.
  unfold reset_index. f_equal.
  rewrite linhas_mapear.
  rewrite (linhas_filter
             (fun r => match Interacao.tipo_interacao r with
                       | Some s => dict_contains INTERACTION_WEIGHTS s
                       | None => false
                       end)).
  rewrite (linhas_filter
             (fun r => negb (isna_data (Interacao.data_interacao r)))).
  rewrite linhas_mapear.
  rewrite !filter_map_comm, map_map, filter_filter_andb.
  rewrite (filter_ext _ (interacao_sobrevive parse)).
  - apply map_ext. now intros [iid cid uid tipo d w].
  - now intros [iid cid uid tipo d w].
Qed.

End LimpezaFatos.

(* ------------------------------------------------------------------ *)
(** * Consequences for cleaned collections *)

Lemma subseq_refl (A : Type) (l : list A) : subseq l l.
Proof. induction l; auto. Qed.



Lemma subseq_In (A : Type) (l1 l2 : list A) (x : A) :
  subseq l1 l2 -> In x l1 -> In x l2.
Proof.
  induction 1; simpl; [tauto| |]; intros H'; [right; auto|].
  destruct H'; [now left|right; auto].
Qed.


Lemma map_fixed (A : Type) (f : A -> A) (l : list A) :
  (forall x, In x l -> f x = x) -> map f l = l.
Proof.
  induction l as [|x l IH]; simpl; intros H; [reflexivity|].
  rewrite H by now left. f_equal. apply IH. intros; apply H; now right.
Qed.

Lemma filter_fixed (A : Type) (p : A -> bool) (l : list A) :
  (forall x, In x l -> p x = true) -> filter p l = l.
Proof.
  induction l as [|x l IH]; simpl; intros H; [reflexivity|].
  rewrite H by now left. f_equal. apply IH. intros; apply H; now right.
Qed.

Lemma indice_reindexar (A : Type) (l : list A) :
  map fst (reindexar l) = seq 0 (length l).
Proof.
  unfold reindexar. generalize 0%nat.
  induction l as [|x l IH]; intros n; simpl; [reflexivity|now rewrite IH].
Qed.


Section LimpezaConsequencias.

Variable parse : string -> option Z.

Lemma linhas_clean_usuarios df :
  linhas (clean_usuarios df)
  = primeiras Usuario.usuario_id [] (map limpar_usuario (linhas df)).
Proof. now rewrite clean_usuarios_rows, linhas_reindexar. Qed.

Lemma linhas_clean_interacoes df :
  linhas (clean_interacoes parse df)
  = map (limpar_interacao parse) (filter (interacao_sobrevive parse) (linhas df)).
Proof. now rewrite clean_interacoes_rows, linhas_reindexar. Qed.

Lemma linhas_clean_conteudos df :
  linhas (clean_conteudos parse df)
  = map (limpar_conteudo parse) (filter (conteudo_sobrevive parse) (linhas df)).
Proof.
  rewrite clean_conteudos_rows, (linhas_filter (conteudo_sobrevive parse)).
  rewrite linhas_mapear, filter_map_comm.
  f_equal. apply filter_ext. intros [cid aid cat d].
  unfold conteudo_sobrevive. simpl. apply data_valida_to_datetime.
Qed.



Lemma clean_usuarios_idem df :
  clean_usuarios (clean_usuarios df) = clean_usuarios df.
Proof.
  rewrite (clean_usuarios_rows (clean_usuarios df)), linhas_clean_usuarios.
  rewrite clean_usuarios_rows. f_equal.
  set (R := primeiras Usuario.usuario_id [] (map limpar_usuario (linhas df))).
  assert (HR : map limpar_usuario R = R).
  { apply map_fixed. intros x Hx.
    eapply subseq_In in Hx; [|apply primeiras_subseq].
    apply in_map_iff in Hx. destruct Hx as (y & <- & _).
    apply limpar_usuario_idem. }
  rewrite HR. apply primeiras_fixed.
  - apply primeiras_NoDup.
  - simpl. tauto.
Qed.

Lemma clean_conteudos_idem df :
  clean_conteudos parse (clean_conteudos parse df) = clean_conteudos parse df.
Proof.
  rewrite (clean_conteudos_rows parse (clean_conteudos parse df)).
  rewrite clean_conteudos_rows.
  set (R := filter _ (mapear _ df)).
  assert (HR : forall x, In x R ->
                 limpar_conteudo parse (snd x) = snd x
                 /\ conteudo_sobrevive parse (snd x) = true).
  { intros x Hx. unfold R in Hx. apply filter_In in Hx. destruct Hx as [Hx Hp].
    split; [|exact Hp]. unfold mapear in Hx. apply in_map_iff in Hx.
    destruct Hx as (y & <- & _). simpl. apply limpar_conteudo_idem. }
  assert (HM : mapear (limpar_conteudo parse) R = R).
  { unfold mapear. apply map_fixed. intros [n x] Hx. simpl.
    f_equal. apply (HR _ Hx). }
  rewrite HM. apply filter_fixed. intros x Hx. apply (HR _ Hx).
Qed.

Lemma interacao_sobrevive_limpar i :
  interacao_sobrevive parse (limpar_interacao parse i)
  = interacao_sobrevive parse i.
Proof.
  destruct i as [iid cid uid tipo d w]. unfold interacao_sobrevive. simpl.
  now rewrite data_valida_to_datetime, normalizar_idem.
Qed.

Lemma clean_interacoes_idem df :
  clean_interacoes parse (clean_interacoes parse df) = clean_interacoes parse df.
Proof.
  rewrite (clean_interacoes_rows parse (clean_interacoes parse df)).
  rewrite linhas_clean_interacoes, clean_interacoes_rows. f_equal.
  rewrite filter_map_comm, map_map.
  rewrite (filter_ext _ (interacao_sobrevive parse))
    by apply interacao_sobrevive_limpar.
  rewrite (filter_fixed (interacao_sobrevive parse)).
  - apply map_ext. apply limpar_interacao_idem.
  - intros x Hx. now apply filter_In in Hx.
Qed.

End LimpezaConsequencias.

(* ------------------------------------------------------------------ *)
(** * Row-wise reading of the builder *)

Lemma coluna_linhas (A B : Type) (c : A -> B) (df : DataFrame A) :
  coluna c df = map c (linhas df).
Proof. unfold coluna, linhas. now rewrite map_map. Qed.

Section MergeFatos.

Variables L R : Type.
Variable on_l : L -> option Z.
Variable on_r : R -> Z.

Lemma linhas_merge_left (left : DataFrame L) (right : DataFrame R) :
  linhas (merge_left on_l on_r left right)
  = flat_map (fun l => juntar_linha on_r (linhas right) (on_l l) l)
             (linhas left).
Proof. apply linhas_reindexar. Qed.

Lemma juntar_linha_fst (right : list R) (k : option Z) (l : L) j :
  In j (juntar_linha on_r right k l) -> fst j = l.
Proof.
  unfold juntar_linha. destruct (correspondentes on_r k right) as [|m ms].
  - simpl. intros [<-|[]]. reflexivity.
  - intros H. apply in_map_iff in H. destruct H as (r & <- & _). reflexivity.
Qed.



Lemma merge_left_from (left : DataFrame L) (right : DataFrame R) j :
  In j (linhas (merge_left on_l on_r left right)) -> In (fst j) (linhas left).
Proof.
  rewrite linhas_merge_left. intros H. apply in_flat_map in H.
  destruct H as (l & Hl & Hj). apply juntar_linha_fst in Hj. now rewrite Hj.
Qed.




End MergeFatos.

Lemma linhas_dropna (A : Type) (isna : A -> bool) (df : DataFrame A) :
  linhas (dropna isna df) = filter (fun r => negb (isna r)) (linhas df).
Proof.
  rewrite dropna_filter. apply (linhas_filter (fun r => negb (isna r))).
Qed.

Lemma linhas_atribuir_dia_interacao (dataset : DataFrame Juncao) :
  linhas (atribuir_dia_interacao
            (map dia_da_data
                 (coluna (fun j => Interacao.data_interacao (j_interacao j))
                         dataset))
            dataset)
  = map linha_engajamento (linhas dataset).
Proof.
  unfold atribuir_dia_interacao, coluna, linhas.
  induction dataset as [|[n j] l IH]; simpl; [reflexivity|].
  now rewrite IH.
Qed.

Section ConstrucaoFatos.

Variable parse : string -> option Z.

Lemma clean_interacoes_datetime df x :
  In x (linhas (clean_interacoes parse df)) ->
  exists t, Interacao.data_interacao x = DTimestamp t.
Proof.
  rewrite linhas_clean_interacoes. intros H. apply in_map_iff in H.
  destruct H as ([iid cid uid tipo d w] & <- & Hx).
  apply filter_In in Hx. destruct Hx as [_ Hs].
  unfold interacao_sobrevive in Hs. apply andb_true_iff in Hs.
  destruct Hs as [Hd _]. unfold data_valida in Hd. simpl in *.
  destruct (to_datetime_celula parse d) as [s|t|] eqn:E; eauto.
  - destruct d as [y|t|]; simpl in E; try discriminate E.
    destruct (parse y); discriminate E.
  - discriminate Hd.
Qed.

Lemma juntar_interacao usuarios conteudos interacoes j :
  In j (linhas (juntar usuarios conteudos interacoes)) ->
  In (j_interacao j) (linhas interacoes).
Proof.
  unfold juntar, j_interacao. intros H.
  apply merge_left_from in H. apply merge_left_from in H.
  now apply merge_left_from in H.
Qed.







End ConstrucaoFatos.

(* ------------------------------------------------------------------ *)
(** * Many-to-one joins *)






(* ------------------------------------------------------------------ *)
(** * Sorting and grouping *)

Lemma inserir_desc_perm (A : Type) (key : A -> Z) (x : A) (l : list A) :
  Permutation (inserir_desc key x l) (x :: l).
Proof.
  induction l as [|y r IH]; simpl; [apply Permutation_refl|].
  destruct (key y <=? key x)%Z; [apply Permutation_refl|].
  eapply perm_trans; [apply perm_skip, IH|apply perm_swap].
Qed.

Lemma ordenar_desc_estavel_perm (A : Type) (key : A -> Z) (l : list A) :
  Permutation (ordenar_desc_estavel key l) l.
Proof.
  induction l as [|x r IH]; simpl; [constructor|].
  eapply perm_trans; [apply inserir_desc_perm|now apply perm_skip].
Qed.

Lemma inserir_desc_sorted (A : Type) (key : A -> Z) (x : A) (l : list A) :
  StronglySorted (fun a b => (key b <= key a)%Z) l ->
  StronglySorted (fun a b => (key b <= key a)%Z) (inserir_desc key x l).
Proof.
  induction l as [|y r IH]; simpl; intros H.
  - constructor; constructor.
  - inversion H as [|? ? Hr Hy]; subst.
    destruct (Z.leb_spec (key y) (key x)) as [Hle|Hlt].
    + constructor; [exact H|]. constructor; [exact Hle|].
      rewrite Forall_forall in *. intros z Hz. specialize (Hy z Hz). lia.
    + constructor; [now apply IH|].
      rewrite Forall_forall in *. intros z Hz.
      apply (Permutation_in _ (inserir_desc_perm key x r)) in Hz.
      destruct Hz as [<-|Hz]; [lia|now apply Hy].
Qed.

Lemma ordenar_desc_estavel_sorted (A : Type) (key : A -> Z) (l : list A) :
  StronglySorted (fun a b => (key b <= key a)%Z) (ordenar_desc_estavel key l).
Proof.
  induction l as [|x r IH]; simpl; [constructor|].
  now apply inserir_desc_sorted.
Qed.

Lemma contrato_ordenar_desc_estavel : contrato_ordenacao ordenar_desc_estavel.
Proof.
  split; intros A key l.
  - apply ordenar_desc_estavel_perm.
  - apply ordenar_desc_estavel_sorted.
Qed.

Lemma contrato_ordenar_desc_inverso : contrato_ordenacao ordenar_desc_inverso.
Proof.
  split; intros A key l; unfold ordenar_desc_inverso.
  - eapply perm_trans; [apply ordenar_desc_estavel_perm|].
    apply Permutation_sym, Permutation_rev.
  - apply ordenar_desc_estavel_sorted.
Qed.

(** The contract leaves the order of equal keys open: both sorts meet it and
    they disagree on two rows with the same key. *)
Lemma contrato_nao_fixa_empates :
  ordenar_desc_estavel snd [(1%Z, 7%Z); (2%Z, 7%Z)] = [(1%Z, 7%Z); (2%Z, 7%Z)]
  /\ ordenar_desc_inverso snd [(1%Z, 7%Z); (2%Z, 7%Z)]
     = [(2%Z, 7%Z); (1%Z, 7%Z)].
Proof. split; reflexivity. Qed.

Lemma StronglySorted_map (A B : Type) (f : A -> B) (R : B -> B -> Prop)
    (l : list A) :
  StronglySorted (fun a b => R (f a) (f b)) l -> StronglySorted R (map f l).
Proof.
  induction 1 as [|x l Hl IH Hx]; simpl; constructor; [exact IH|].
  rewrite Forall_forall in *. intros y Hy. apply in_map_iff in Hy.
  destruct Hy as (z & <- & Hz). now apply Hx.
Qed.

Lemma linhas_head (A : Type) (n : Z) (df : DataFrame A) :
  linhas (head n df) = head_linhas n (linhas df).
Proof.
  unfold head, head_linhas, linhas. rewrite length_map.
  destruct (0 <=? n)%Z; now rewrite firstn_map.
Qed.


Section ChavesFatos.

Variable K : Type.
Variable K_eqb : K -> K -> bool.
Variable K_leb : K -> K -> bool.
Hypothesis K_eqb_spec : forall a b, K_eqb a b = true <-> a = b.

Lemma unique_In (l : list K) (k : K) : In k (unique K_eqb l) <-> In k l.
Proof.
  induction l as [|x r IH]; simpl; [tauto|].
  rewrite filter_In, IH. split.
  - intros [H|[H _]]; auto.
  - intros [H|H]; [now left|].
    destruct (K_eqb k x) eqn:E.
    + left. symmetry. now apply K_eqb_spec.
    + right. now split.
Qed.

Lemma unique_NoDup (l : list K) : NoDup (unique K_eqb l).
Proof.
  induction l as [|x r IH]; simpl; constructor.
  - rewrite filter_In. intros [_ H].
    assert (E : K_eqb x x = true) by now apply K_eqb_spec.
    now rewrite E in H.
  - now apply NoDup_filter.
Qed.

Lemma inserir_perm (k : K) (l : list K) :
  Permutation (inserir K_leb k l) (k :: l).
Proof.
  induction l as [|y r IH]; simpl; [apply Permutation_refl|].
  destruct (K_leb k y); [apply Permutation_refl|].
  eapply perm_trans; [apply perm_skip, IH|apply perm_swap].
Qed.

Lemma ordenar_chaves_perm (l : list K) : Permutation (ordenar_chaves K_leb l) l.
Proof.
  induction l as [|x r IH]; simpl; [constructor|].
  eapply perm_trans; [apply inserir_perm|now apply perm_skip].
Qed.

Lemma presentes_In (A : Type) (l : list (option A)) (a : A) :
  In a (presentes l) <-> In (Some a) l.
Proof.
  induction l as [|[x|] r IH]; simpl; [tauto| |].
  - rewrite IH. split; intros [H|H]; auto; left; congruence.
  - rewrite IH. split; [auto|]. intros [H|H]; [discriminate H|exact H].
Qed.

Variable A : Type.
Variable chave : A -> option K.

Lemma grupos_NoDup (df : DataFrame A) : NoDup (grupos K_eqb K_leb chave df).
Proof.
  unfold grupos. eapply Permutation_NoDup.
  - apply Permutation_sym, ordenar_chaves_perm.
  - apply unique_NoDup.
Qed.

Lemma grupos_In (df : DataFrame A) (k : K) :
  In k (grupos K_eqb K_leb chave df)
  <-> exists r, In r (linhas df) /\ chave r = Some k.
Proof.
  unfold grupos. split.
  - intros H. apply (Permutation_in _ (ordenar_chaves_perm _)) in H.
    apply unique_In, presentes_In in H. rewrite coluna_linhas in H.
    apply in_map_iff in H. destruct H as (r & E & Hr). now exists r.
  - intros (r & Hr & E).
    apply (Permutation_in _ (Permutation_sym (ordenar_chaves_perm _))).
    apply unique_In, presentes_In. rewrite coluna_linhas.
    apply in_map_iff. now exists r.
Qed.

Lemma grupo_In (df : DataFrame A) (k : K) (r : A) :
  In r (grupo K_eqb chave k df) <-> In r (linhas df) /\ chave r = Some k.
Proof.
  unfold grupo. rewrite filter_In. split; intros [Hr H]; split; auto.
  - destruct (chave r) as [k'|]; [|discriminate H].
    f_equal. now apply K_eqb_spec.
  - rewrite H. now apply K_eqb_spec.
Qed.

Lemma grupo_vazio (df : DataFrame A) (k : K) :
  (forall r, In r (linhas df) -> chave r <> Some k) ->
  grupo K_eqb chave k df = [].
Proof.
  intros H. destruct (grupo K_eqb chave k df) as [|r g] eqn:E; [reflexivity|].
  assert (Hr : In r (grupo K_eqb chave k df)) by (rewrite E; now left).
  apply grupo_In in Hr. destruct Hr as [Hr Hk]. now apply H in Hr.
Qed.

Lemma somatorio_zero (B : Type) (l : list B) :
  somatorio (map (fun _ => 0%Z) l) = 0%Z.
Proof. induction l as [|x r IH]; simpl; [reflexivity|now rewrite IH]. Qed.

Lemma somatorio_add (B : Type) (f g : B -> Z) (l : list B) :
  somatorio (map (fun x => (f x + g x)%Z) l)
  = (somatorio (map f l) + somatorio (map g l))%Z.
Proof. induction l as [|x r IH]; simpl; [reflexivity|]. rewrite IH. lia. Qed.

Lemma somatorio_indicador (k0 : K) (ks : list K) :
  NoDup ks -> In k0 ks ->
  somatorio (map (fun k => if K_eqb k0 k then 1%Z else 0%Z) ks) = 1%Z.
Proof.
  induction ks as [|k r IH]; intros Hnd Hin; [destruct Hin|].
  inversion Hnd as [|? ? Hk Hnd']; subst. simpl.
  destruct (K_eqb k0 k) eqn:E.
  - apply K_eqb_spec in E. subst k0.
    rewrite (map_ext_in _ (fun _ => 0%Z)), somatorio_zero; [reflexivity|].
    intros k1 Hk1. destruct (K_eqb k k1) eqn:E1; [|reflexivity].
    apply K_eqb_spec in E1. subst. contradiction.
  - destruct Hin as [->|Hin].
    + assert (K_eqb k0 k0 = true) by now apply K_eqb_spec. congruence.
    + now rewrite IH.
Qed.

(** Every row with a key falls in exactly one group. *)
Lemma grupos_particao (ks : list K) (df : DataFrame A) :
  NoDup ks ->
  (forall r, In r (linhas df) -> exists k, chave r = Some k /\ In k ks) ->
  somatorio (map (fun k => contar (grupo K_eqb chave k df)) ks)
  = contar (linhas df).
Proof.
  intros Hnd. unfold grupo, contar.
  induction (linhas df) as [|r l IH]; intros Hall.
  - apply somatorio_zero.
  - destruct (Hall r (or_introl eq_refl)) as (k0 & Ek & Hk0).
    rewrite (map_ext _
               (fun k => ((if K_eqb k0 k then 1 else 0)
                          + Z.of_nat (length
                              (filter (fun r0 => match chave r0 with
                                                 | Some k' => K_eqb k' k
                                                 | None => false
                                                 end) l)))%Z)).
    + rewrite somatorio_add, somatorio_indicador, IH by auto with datatypes.
      simpl length. lia.
    + intros k. cbn [filter]. rewrite Ek.
      destruct (K_eqb k0 k); simpl length; lia.
Qed.

End ChavesFatos.

Lemma par_eqb_spec (a b : Z * string) : par_eqb a b = true <-> a = b.
Proof.
  destruct a as [x s], b as [y t]. unfold par_eqb. simpl.
  rewrite andb_true_iff, Z.eqb_eq, String.eqb_eq.
  split; [intros [-> ->]; reflexivity|intros E; now inversion E].
Qed.

Lemma string_eqb_spec (a b : string) : String.eqb a b = true <-> a = b.
Proof. apply String.eqb_eq. Qed.

Lemma Z_eqb_spec (a b : Z) : Z.eqb a b = true <-> a = b.
Proof. apply Z.eqb_eq. Qed.

(* ------------------------------------------------------------------ *)
(** * Rounding and day ranges *)


Lemma intervalo_length (lo hi : Z) :
  length (intervalo lo hi) = Z.to_nat (hi - lo + 1).
Proof. unfold intervalo. now rewrite length_map, length_seq. Qed.

Lemma intervalo_In (lo hi d : Z) :
  In d (intervalo lo hi) <-> (lo <= d <= hi)%Z.
Proof.
  unfold intervalo. rewrite in_map_iff. split.
  - intros (i & <- & Hi). apply in_seq in Hi. lia.
  - intros H. exists (Z.to_nat (d - lo)). split; [lia|]. apply in_seq. lia.
Qed.

Lemma deslocados_sorted (lo : Z) (a n : nat) :
  StronglySorted Z.lt (map (fun i => (lo + Z.of_nat i)%Z) (seq a n)).
Proof.
  revert a. induction n as [|n IH]; intros a; simpl; constructor; [apply IH|].
  apply Forall_forall. intros x Hx. apply in_map_iff in Hx.
  destruct Hx as (i & <- & Hi). apply in_seq in Hi. lia.
Qed.

Lemma intervalo_sorted (lo hi : Z) : StronglySorted Z.lt (intervalo lo hi).
Proof. apply deslocados_sorted. Qed.

Lemma minimo_spec (d : Z) (ds : list Z) :
  In (minimo d ds) (d :: ds) /\ forall x, In x (d :: ds) -> (minimo d ds <= x)%Z.
Proof.
  unfold minimo. induction ds as [|y r [IHin IHle]]; simpl.
  - split; [now left|]. intros x [<-|[]]. lia.
  - split.
    + destruct (Z.min_spec y (fold_right Z.min d r)) as [[_ ->]|[_ ->]];
        [now right; left|].
      destruct IHin as [E|Hin]; [now left|now right; right].
    + intros x [<-|[<-|Hx]].
      * specialize (IHle d (or_introl eq_refl)). lia.
      * lia.
      * specialize (IHle x (or_intror Hx)). lia.
Qed.

Lemma maximo_spec (d : Z) (ds : list Z) :
  In (maximo d ds) (d :: ds) /\ forall x, In x (d :: ds) -> (x <= maximo d ds)%Z.
Proof.
  unfold maximo. induction ds as [|y r [IHin IHle]]; simpl.
  - split; [now left|]. intros x [<-|[]]. lia.
  - split.
    + destruct (Z.max_spec y (fold_right Z.max d r)) as [[_ ->]|[_ ->]].
      * destruct IHin as [E|Hin]; [now left|now right; right].
      * now right; left.
    + intros x [<-|[<-|Hx]].
      * specialize (IHle d (or_introl eq_refl)). lia.
      * lia.
      * specialize (IHle x (or_intror Hx)). lia.
Qed.

Lemma dia_da_linha_In (df : DataFrame Engajamento.t) (d : Z) :
  In d (presentes (coluna dia_da_linha df))
  <-> exists r, In r (linhas df) /\ dia_da_linha r = Some d.
Proof.
  rewrite presentes_In, coluna_linhas, in_map_iff.
  split; intros (r & H1 & H2); exists r; now split.
Qed.

(* ------------------------------------------------------------------ *)
(** * Sorted result tables *)

Lemma somatorio_perm (l l' : list Z) :
  Permutation l l' -> somatorio l = somatorio l'.
Proof. induction 1; simpl; lia. Qed.

Lemma chave_autor_Some (r : Engajamento.t) (k : Z * string) :
  chave_autor r = Some k
  <-> Engajamento.autor_id r = Some (fst k)
      /\ Engajamento.autor_nome r = Some (snd k).
Proof.
  unfold chave_autor. destruct k as [a n]. simpl.
  destruct (Engajamento.autor_id r), (Engajamento.autor_nome r);
    split; try intros [H1 H2]; try intros H; try discriminate; try congruence.
  now injection H as -> ->.
Qed.

Section TabelasOrdenadas.

Variable sort : forall A : Type, (A -> Z) -> list A -> list A.
Hypothesis Hsort : contrato_ordenacao sort.


(** The rows of a freshly indexed table after [sort_values] and
    [reset_index]: the same rows, keys descending. *)
Lemma linhas_ordenadas (A : Type) (key : A -> Z) (G : list A) :
  let R := linhas (reset_index (sort (fun ir => key (snd ir)) (reindexar G))) in
  Permutation R G /\ StronglySorted (fun a b => (key b <= key a)%Z) R.
Proof.
  cbv zeta. rewrite linhas_reset_index. split.
  - rewrite <- (linhas_reindexar G) at 2. unfold linhas.
    apply Permutation_map, (proj1 Hsort).
  - unfold linhas. apply StronglySorted_map, (proj2 Hsort).
Qed.

Lemma linhas_top_autores df top_n :
  linhas (top_autores_por_engajamento sort df top_n)
  = head_linhas
      (match top_n with Some n => n | None => TOP_N_DEFAULT end)
      (linhas (reset_index
                 (sort (fun ir => score_engajamento (snd ir))
                       (reindexar (ranking_por_autor df))))).
Proof.
  unfold top_autores_por_engajamento.
  now rewrite !linhas_reset_index, linhas_head.
Qed.

End TabelasOrdenadas.


(* ------------------------------------------------------------------ *)
(** * What a merged row is made of *)

Section MergeOrigem.

Variables L R : Type.
Variable on_l : L -> option Z.
Variable on_r : R -> Z.

(** The right half of a merged row is a right row under the left row's
    key. *)
Lemma merge_left_match (left : DataFrame L) (right : DataFrame R)
    (j : L * option R) (r : R) :
  In j (linhas (merge_left on_l on_r left right)) ->
  snd j = Some r ->
  In r (linhas right) /\ on_l (fst j) = Some (on_r r).
Proof.
  rewrite linhas_merge_left. intros Hj Hr. apply in_flat_map in Hj.
  destruct Hj as (l & _ & Hj). unfold juntar_linha in Hj.
  destruct (correspondentes on_r (on_l l) (linhas right)) as [|m ms] eqn:E.
  - destruct Hj as [<-|[]]. discriminate Hr.
  - apply in_map_iff in Hj. destruct Hj as (r' & <- & Hr').
    simpl in Hr. injection Hr as ->. rewrite <- E in Hr'.
    unfold correspondentes in Hr'. simpl.
    destruct (on_l l) as [k|]; [|destruct Hr'].
    apply filter_In in Hr'. destruct Hr' as [Hin Hk].
    apply Z.eqb_eq in Hk. now subst.
Qed.

(** A merged row without right half had no right row under its key. *)
Lemma merge_left_unmatched (left : DataFrame L) (right : DataFrame R)
    (j : L * option R) (r : R) :
  In j (linhas (merge_left on_l on_r left right)) ->
  snd j = None -> In r (linhas right) -> on_l (fst j) <> Some (on_r r).
Proof.
  rewrite linhas_merge_left. intros Hj Hn Hr Hk. apply in_flat_map in Hj.
  destruct Hj as (l & _ & Hj). unfold juntar_linha in Hj.
  destruct (correspondentes on_r (on_l l) (linhas right)) as [|m ms] eqn:E.
  - destruct Hj as [<-|[]]. simpl in Hk. rewrite Hk in E. simpl in E.
    assert (Hin : In r (filter (fun r0 => Z.eqb (on_r r0) (on_r r))
                               (linhas right))).
    { apply filter_In. split; [exact Hr|apply Z.eqb_refl]. }
    rewrite E in Hin. destruct Hin.
  - apply in_map_iff in Hj. destruct Hj as (r' & <- & _). discriminate Hn.
Qed.

End MergeOrigem.

Section ConstrucaoOrigem.

Variable parse : string -> option Z.

Lemma clean_conteudos_datetime df x :
  In x (linhas (clean_conteudos parse df)) ->
  exists t, Conteudo.data_publicacao x = DTimestamp t.
Proof.
  rewrite linhas_clean_conteudos. intros H. apply in_map_iff in H.
  destruct H as ([cid aid cat d] & <- & Hx).
  apply filter_In in Hx. destruct Hx as [_ Hs].
  unfold conteudo_sobrevive, data_valida in Hs. simpl in *.
  destruct (to_datetime_celula parse d) as [s|t|] eqn:E; eauto.
  - destruct d as [y|t|]; simpl in E; try discriminate E.
    destruct (parse y); discriminate E.
  - discriminate Hs.
Qed.

Lemma clean_interacoes_pesada df x :
  In x (linhas (clean_interacoes parse df)) ->
  exists s w,
    Interacao.tipo_interacao x = Some s
    /\ dict_get INTERACTION_WEIGHTS s = Some w
    /\ Interacao.peso_interacao x = Some w.
Proof.
  rewrite linhas_clean_interacoes. intros H. apply in_map_iff in H.
  destruct H as ([iid cid uid tipo d w0] & <- & Hx).
  apply filter_In in Hx. destruct Hx as [_ Hs].
  unfold interacao_sobrevive in Hs. apply andb_true_iff in Hs.
  destruct Hs as [_ Ht]. cbn [Interacao.tipo_interacao] in Ht.
  unfold limpar_interacao.
  cbn [Interacao.tipo_interacao Interacao.peso_interacao].
  destruct (normalizar tipo) as [s|]; [|discriminate Ht].
  cbn [tipo_conhecido peso_do_tipo] in *. unfold dict_contains in Ht.
  destruct (dict_get INTERACTION_WEIGHTS s) as [w|] eqn:E; [|discriminate Ht].
  exists s, w. repeat split; assumption || reflexivity.
Qed.

(** The parts of a merged row come from the cleaned collections and agree
    on the join keys. *)
Lemma juntar_origem usuarios conteudos interacoes j :
  In j (linhas (juntar usuarios conteudos interacoes)) ->
  In (j_interacao j) (linhas interacoes)
  /\ (forall c, j_conteudo j = Some c ->
        In c (linhas conteudos)
        /\ Conteudo.conteudo_id c = Interacao.conteudo_id (j_interacao j))
  /\ (forall a, j_autor j = Some a ->
        exists c ua,
          j_conteudo j = Some c /\ In ua (linhas usuarios)
          /\ a = autor_de ua
          /\ Usuario.usuario_id ua = Conteudo.autor_id c)
  /\ (forall p, j_participante j = Some p ->
        exists up,
          In up (linhas usuarios) /\ p = participante_de up
          /\ Usuario.usuario_id up = Interacao.usuario_id (j_interacao j)).
Proof.
  intros Hj. split; [eapply juntar_interacao; exact Hj|].
  unfold juntar in Hj. destruct j as [[[i oc] oa] op].
  unfold j_conteudo, j_autor, j_participante, j_interacao. cbn [fst snd].
  pose proof Hj as H3.
  apply merge_left_from in Hj. cbn [fst] in Hj. pose proof Hj as H2.
  apply merge_left_from in Hj. cbn [fst] in Hj. pose proof Hj as H1.
  split; [|split].
  - intros c ->.
    destruct (@merge_left_match _ _ _ _ _ _ _ c H1 eq_refl) as [Hc Hk].
    cbn [fst] in Hk. split; [exact Hc|congruence].
  - intros a ->.
    destruct (@merge_left_match _ _ _ _ _ _ _ a H2 eq_refl) as [Ha Hk].
    unfold rename_autores in Ha. rewrite linhas_mapear in Ha.
    apply in_map_iff in Ha. destruct Ha as (ua & <- & Hua).
    unfold j_autor_id in Hk. cbn [fst snd] in Hk.
    destruct oc as [c|]; [|discriminate Hk]. cbn [option_map] in Hk.
    exists c, ua. repeat split; [exact Hua|]. cbn in Hk. congruence.
  - intros p ->.
    destruct (@merge_left_match _ _ _ _ _ _ _ p H3 eq_refl) as [Hp Hk].
    unfold rename_participantes in Hp. rewrite linhas_mapear in Hp.
    apply in_map_iff in Hp. destruct Hp as (up & <- & Hup).
    unfold j_usuario_id in Hk. cbn in Hk.
    exists up. repeat split; [exact Hup|congruence].
Qed.

(** The builder's result, written out. *)
Lemma build_engagement_dataset_eq u c i :
  let dataset :=
    reset_index
      (dropna falta_essencial
         (juntar (clean_usuarios u) (clean_conteudos parse c)
                 (clean_interacoes parse i))) in
  build_engagement_dataset parse (mkDatasets (Some u) (Some c) (Some i))
  = Ok (atribuir_dia_interacao
          (map dia_da_data
               (coluna (fun j => Interacao.data_interacao (j_interacao j))
                       dataset))
          dataset).
Proof.
  cbv zeta. unfold build_engagement_dataset.
  cbn [ds_usuarios ds_conteudos ds_interacoes getitem bind].
  fold (juntar (clean_usuarios u) (clean_conteudos parse c)
               (clean_interacoes parse i)).
  set (J := juntar _ _ _). set (dataset := reset_index (dropna falta_essencial J)).
  unfold dt_date.
  assert (Hdt : forallb tipo_datetime
                  (coluna (fun j => Interacao.data_interacao (j_interacao j))
                          dataset) = true).
  { apply forallb_forall. intros d Hd. rewrite coluna_linhas in Hd.
    unfold dataset in Hd. rewrite linhas_reset_index, linhas_dropna in Hd.
    apply in_map_iff in Hd. destruct Hd as (j & <- & Hj).
    apply filter_In in Hj. destruct Hj as [Hj _].
    apply juntar_interacao, clean_interacoes_datetime in Hj.
    destruct Hj as [t ->]. reflexivity. }
  rewrite Hdt. reflexivity.
Qed.

Lemma indice_atribuir_dia_interacao (f : Juncao -> option Z)
    (dataset : DataFrame Juncao) :
  map fst (atribuir_dia_interacao (map f (linhas dataset)) dataset)
  = map fst dataset.
Proof.
  unfold atribuir_dia_interacao, linhas.
  induction dataset as [|[n j] l IH]; simpl; [reflexivity|].
  now rewrite IH.
Qed.

Lemma build_engagement_dataset_frame u c i :
  exists df,
    build_engagement_dataset parse (mkDatasets (Some u) (Some c) (Some i))
    = Ok df
    /\ linhas df
       = map linha_engajamento
           (filter (fun j => negb (falta_essencial j))
              (linhas (juntar (clean_usuarios u) (clean_conteudos parse c)
                              (clean_interacoes parse i))))
    /\ map fst df = seq 0 (length df).
Proof.
  eexists. split; [apply build_engagement_dataset_eq|]. cbv zeta.
  set (dataset := reset_index _).
  split.
  - rewrite linhas_atribuir_dia_interacao. unfold dataset.
    now rewrite linhas_reset_index, linhas_dropna.
  - rewrite coluna_linhas, map_map, indice_atribuir_dia_interacao.
    unfold atribuir_dia_interacao. rewrite length_map, length_combine.
    rewrite length_map, length_linhas, Nat.min_id.
    unfold dataset, reset_index. rewrite indice_reindexar.
    unfold reindexar. rewrite length_combine, length_seq, Nat.min_id.
    reflexivity.
Qed.

End ConstrucaoOrigem.

(* ------------------------------------------------------------------ *)
(** * Rows that pass the missing-field filter *)


(** A merged row with its four essential fields present has a content row,
    an author and a participant behind it. *)
Lemma juntar_resolvida (usuarios : DataFrame Usuario.t)
    (conteudos : DataFrame Conteudo.t) (interacoes : DataFrame Interacao.t)
    (j : Juncao) :
  In j (linhas (juntar usuarios conteudos interacoes)) ->
  falta_essencial j = false ->
  exists c a p,
    In (j_interacao j) (linhas interacoes)
    /\ In c (linhas conteudos) /\ In a (linhas usuarios)
    /\ In p (linhas usuarios)
    /\ j_conteudo j = Some c /\ j_autor j = Some (autor_de a)
    /\ j_participante j = Some (participante_de p)
    /\ Conteudo.conteudo_id c = Interacao.conteudo_id (j_interacao j)
    /\ Usuario.usuario_id a = Conteudo.autor_id c
    /\ Usuario.usuario_id p = Interacao.usuario_id (j_interacao j)
    /\ Usuario.nome a <> None /\ Usuario.nome p <> None
    /\ Conteudo.categoria c <> None
    /\ Conteudo.data_publicacao c <> NaT.
Proof.
  intros Hj Hf.
  destruct (juntar_origem usuarios conteudos interacoes j Hj)
    as (Hi & Hc & Ha & Hp).
  unfold falta_essencial in Hf.
  apply orb_false_iff in Hf. destruct Hf as [Hf Hdata].
  apply orb_false_iff in Hf. destruct Hf as [Hf Hcat].
  apply orb_false_iff in Hf. destruct Hf as [Han Hun].
  unfold j_autor_nome in Han. unfold j_usuario_nome in Hun.
  unfold j_categoria in Hcat. unfold j_data_publicacao in Hdata.
  destruct (j_autor j) as [a|] eqn:Ea; [|discriminate Han].
  destruct (j_participante j) as [p|] eqn:Ep; [|discriminate Hun].
  destruct (Ha a eq_refl) as (c & ua & Ec & Hua & -> & Hka).
  destruct (Hp p eq_refl) as (up & Hup & -> & Hkp).
  rewrite Ec in Hcat, Hdata.
  destruct (Hc c Ec) as [Hcin Hkc].
  exists c, ua, up. cbn [autor_de Autor.autor_nome] in Han.
  cbn [participante_de Participante.usuario_nome] in Hun.
  repeat split; try assumption; try reflexivity.
  - intros E. rewrite E in Han. discriminate Han.
  - intros E. rewrite E in Hun. discriminate Hun.
  - intros E. rewrite E in Hcat. discriminate Hcat.
  - intros E. rewrite E in Hdata. discriminate Hdata.
Qed.

(* ------------------------------------------------------------------ *)
(** * The rows of the unified dataset are complete *)

Lemma build_linhas_completas (parse : string -> option Z)
    (u : DataFrame Usuario.t) (c : DataFrame Conteudo.t)
    (i : DataFrame Interacao.t) :
  exists df,
    build_engagement_dataset parse (mkDatasets (Some u) (Some c) (Some i))
    = Ok df
    /\ map fst df = seq 0 (length df)
    /\ Forall linha_completa (linhas df).
Proof.
  destruct (build_engagement_dataset_frame parse u c i)
    as (df & Hok & Hrows & Hidx).
  exists df. split; [exact Hok|]. split; [exact Hidx|].
  apply Forall_forall. intros r Hr. rewrite Hrows in Hr.
  apply in_map_iff in Hr. destruct Hr as (j & <- & Hj).
  apply filter_In in Hj. destruct Hj as [Hj Hf].
  apply negb_true_iff in Hf.
  destruct (juntar_resolvida _ _ _ j Hj Hf)
    as (cc & a & p & Hi & Hc & Ha & Hp & Ec & Ea & Ep & Kc & Ka & Kp
        & Na & Np & Ncat & Ndata).
  destruct (clean_interacoes_pesada parse i _ Hi) as (s & w & Es & Ew & Epeso).
  destruct (clean_interacoes_datetime parse i _ Hi) as (t & Et).
  destruct (clean_conteudos_datetime parse c _ Hc) as (tp & Etp).
  unfold linha_completa, linha_engajamento, engajamento_de, j_autor_nome, j_usuario_nome,
    j_categoria, j_data_publicacao, j_segmento_autor, j_segmento_usuario.
  cbn [Engajamento.tipo_interacao Engajamento.peso_interacao
       Engajamento.data_interacao Engajamento.dia_interacao
       Engajamento.autor_id Engajamento.autor_nome Engajamento.usuario_nome
       Engajamento.categoria Engajamento.data_publicacao].
  rewrite Ec, Ea, Ep, Et. cbn [dia_da_data option_map autor_de
    participante_de Autor.autor_nome Participante.usuario_nome].
  split; [exists s, w; repeat split; assumption|].
  split; [exists t; split; reflexivity|].
  split; [eexists; reflexivity|].
  split; [exact Na|]. split; [exact Np|]. split; [exact Ncat|].
  exists tp. exact Etp.
Qed.

(* ------------------------------------------------------------------ *)
(** * Totals over groups *)


Lemma soma_app (l1 l2 : list (option Z)) :
  soma (l1 ++ l2) = (soma l1 + soma l2)%Z.
Proof.
  induction l1 as [|[v|] r IH]; simpl; rewrite ?IH; lia.
Qed.

Section TotaisPorGrupo.

Variable K : Type.
Variable K_eqb : K -> K -> bool.
Hypothesis K_eqb_spec : forall a b, K_eqb a b = true <-> a = b.
Variable A : Type.
Variable chave : A -> option K.
Variable peso : A -> option Z.

Lemma somatorio_indicador_peso (k0 : K) (v : Z) (ks : list K) :
  NoDup ks -> In k0 ks ->
  somatorio (map (fun k => if K_eqb k0 k then v else 0%Z) ks) = v.
Proof.
  induction ks as [|k r IH]; intros Hnd Hin; [destruct Hin|].
  inversion Hnd as [|? ? Hk Hnd']; subst. simpl.
  destruct (K_eqb k0 k) eqn:E.
  - apply K_eqb_spec in E. subst k0.
    rewrite (map_ext_in _ (fun _ => 0%Z)), somatorio_zero; [lia|].
    intros k1 Hk1. destruct (K_eqb k k1) eqn:E1; [|reflexivity].
    apply K_eqb_spec in E1. subst. contradiction.
  - destruct Hin as [->|Hin].
    + assert (K_eqb k0 k0 = true) by now apply K_eqb_spec. congruence.
    + now rewrite IH.
Qed.

(** The weights of the groups add up to the weights of all rows. *)
Lemma grupos_particao_soma (ks : list K) (df : DataFrame A) :
  NoDup ks ->
  (forall r, In r (linhas df) -> exists k, chave r = Some k /\ In k ks) ->
  somatorio (map (fun k => soma (map peso (grupo K_eqb chave k df))) ks)
  = soma (map peso (linhas df)).
Proof.
  intros Hnd. unfold grupo.
  induction (linhas df) as [|r l IH]; intros Hall.
  - apply somatorio_zero.
  - destruct (Hall r (or_introl eq_refl)) as (k0 & Ek & Hk0).
    set (v := match peso r with Some x => x | None => 0%Z end).
    rewrite (map_ext _
               (fun k => ((if K_eqb k0 k then v else 0)
                          + soma (map peso
                              (filter (fun r0 => match chave r0 with
                                                 | Some k' => K_eqb k' k
                                                 | None => false
                                                 end) l)))%Z)).
    + rewrite somatorio_add, somatorio_indicador_peso, IH
        by auto with datatypes.
      unfold v. simpl. destruct (peso r); lia.
    + intros k. cbn [filter]. rewrite Ek. unfold v.
      destruct (K_eqb k0 k); simpl; destruct (peso r); lia.
Qed.

End TotaisPorGrupo.

Lemma firstn_all_le (A : Type) (n : nat) (l : list A) :
  (length l <= n)%nat -> firstn n l = l.
Proof. intros H. now apply firstn_all2. Qed.


Lemma soma_coluna (A : Type) (c : A -> option Z) (df : DataFrame A) :
  soma (coluna c df) = soma (map c (linhas df)).
Proof. now rewrite coluna_linhas. Qed.

(* ------------------------------------------------------------------ *)
(** * The timeline, day by day *)



(* ------------------------------------------------------------------ *)
(** * Totals of the sorted tables *)

Lemma linha_completa_chaves (r : Engajamento.t) :
  linha_completa r ->
  com_timestamp r
  /\ Engajamento.categoria r <> None
  /\ Engajamento.tipo_interacao r <> None
  /\ chave_autor r <> None.
Proof.
  intros ((s & w & Es & _) & (t & Et & _) & (a & Ea) & Hn & _ & Hc & _).
  split; [now exists t|]. split; [exact Hc|]. split; [congruence|].
  unfold chave_autor. rewrite Ea.
  destruct (Engajamento.autor_nome r); [discriminate|contradiction].
Qed.

Section TotaisOrdenados.

Variable sort : forall A : Type, (A -> Z) -> list A -> list A.
Hypothesis Hsort : contrato_ordenacao sort.
Variable df : DataFrame Engajamento.t.

Lemma linhas_interacoes_por_categoria :
  Permutation (linhas (interacoes_por_categoria sort df))
              (tabela_por_categoria df)
  /\ StronglySorted (fun a b => (cat_score b <= cat_score a)%Z)
                    (linhas (interacoes_por_categoria sort df)).
Proof. exact (linhas_ordenadas Hsort cat_score (tabela_por_categoria df)). Qed.

Lemma linhas_distribuicao_tipo_interacao :
  Permutation (linhas (distribuicao_tipo_interacao sort df))
              (distribuicao_por_tipo df)
  /\ StronglySorted (fun a b => (quantidade b <= quantidade a)%Z)
                    (linhas (distribuicao_tipo_interacao sort df)).
Proof. exact (linhas_ordenadas Hsort quantidade (distribuicao_por_tipo df)). Qed.

Lemma linhas_ranking_completo :
  Permutation (linhas (reset_index
                         (sort (fun ir => score_engajamento (snd ir))
                               (reindexar (ranking_por_autor df)))))
              (ranking_por_autor df).
Proof.
  exact (proj1 (linhas_ordenadas Hsort score_engajamento (ranking_por_autor df))).
Qed.

Lemma cobertura (K : Type) (K_eqb K_leb : K -> K -> bool)
    (chave : Engajamento.t -> option K) :
  (forall a b, K_eqb a b = true <-> a = b) ->
  (forall r, In r (linhas df) -> chave r <> None) ->
  forall r, In r (linhas df) ->
    exists k, chave r = Some k /\ In k (grupos K_eqb K_leb chave df).
Proof.
  intros Hspec Hsome r Hr. destruct (chave r) as [k|] eqn:E.
  - exists k. split; [reflexivity|].
    apply (grupos_In K_eqb K_leb Hspec). now exists r.
  - now apply Hsome in Hr.
Qed.

Lemma categorias_totais :
  (forall r, In r (linhas df) -> Engajamento.categoria r <> None) ->
  somatorio (map cat_interacoes (linhas (interacoes_por_categoria sort df)))
  = Z.of_nat (length df)
  /\ somatorio (map cat_score (linhas (interacoes_por_categoria sort df)))
     = soma (coluna Engajamento.peso_interacao df).
Proof.
  intros Hcat. destruct linhas_interacoes_por_categoria as [Hperm _].
  pose proof (cobertura String.eqb String.leb Engajamento.categoria
                string_eqb_spec Hcat) as Hcov.
  pose proof (grupos_NoDup String.eqb String.leb string_eqb_spec
                Engajamento.categoria df) as Hnd.
  split.
  - rewrite (somatorio_perm (Permutation_map cat_interacoes Hperm)).
    unfold tabela_por_categoria. rewrite map_map. cbn [cat_interacoes].
    rewrite (map_ext _ (fun k => contar (grupo String.eqb
                                     Engajamento.categoria k df)))
      by (intros k; unfold contar; now rewrite length_map).
    rewrite (grupos_particao String.eqb string_eqb_spec
               Engajamento.categoria df Hnd Hcov).
    unfold contar. now rewrite length_linhas.
  - rewrite (somatorio_perm (Permutation_map cat_score Hperm)).
    unfold tabela_por_categoria. rewrite map_map. cbn [cat_score].
    rewrite (@grupos_particao_soma _ String.eqb string_eqb_spec _
               Engajamento.categoria Engajamento.peso_interacao _ df Hnd Hcov).
    now rewrite soma_coluna.
Qed.

Lemma distribuicao_total :
  (forall r, In r (linhas df) -> Engajamento.tipo_interacao r <> None) ->
  somatorio (map quantidade (linhas (distribuicao_tipo_interacao sort df)))
  = Z.of_nat (length df).
Proof.
  intros Htipo. destruct linhas_distribuicao_tipo_interacao as [Hperm _].
  pose proof (cobertura String.eqb String.leb Engajamento.tipo_interacao
                string_eqb_spec Htipo) as Hcov.
  pose proof (grupos_NoDup String.eqb String.leb string_eqb_spec
                Engajamento.tipo_interacao df) as Hnd.
  rewrite (somatorio_perm (Permutation_map quantidade Hperm)).
  unfold distribuicao_por_tipo. rewrite map_map. cbn [quantidade].
  rewrite (map_ext _ (fun k => contar (grupo String.eqb
                                   Engajamento.tipo_interacao k df)))
    by (intros k; unfold contar; now rewrite length_map).
  rewrite (grupos_particao String.eqb string_eqb_spec
             Engajamento.tipo_interacao df Hnd Hcov).
  unfold contar. now rewrite length_linhas.
Qed.

Lemma ranking_length : length (ranking_por_autor df)
                       = length (grupos par_eqb par_leb chave_autor df).
Proof. unfold ranking_por_autor. apply length_map. Qed.

Lemma top_autores_length (n : Z) :
  (0 <= n)%Z ->
  length (top_autores_por_engajamento sort df (Some n))
  = Nat.min (Z.to_nat n) (length (grupos par_eqb par_leb chave_autor df)).
Proof.
  intros Hn. rewrite <- length_linhas, linhas_top_autores.
  unfold head_linhas. destruct (Z.leb_spec 0 n) as [_|Hneg]; [|lia].
  rewrite length_firstn, (Permutation_length linhas_ranking_completo).
  now rewrite ranking_length.
Qed.

Lemma ranking_total (n : Z) :
  (forall r, In r (linhas df) -> chave_autor r <> None) ->
  (Z.of_nat (length (grupos par_eqb par_leb chave_autor df)) <= n)%Z ->
  somatorio (map score_engajamento
                 (linhas (top_autores_por_engajamento sort df (Some n))))
  = soma (coluna Engajamento.peso_interacao df).
Proof.
  intros Hkey Hn. rewrite linhas_top_autores. unfold head_linhas.
  destruct (Z.leb_spec 0 n) as [_|Hneg]; [|lia].
  rewrite firstn_all_le
    by (rewrite (Permutation_length linhas_ranking_completo), ranking_length;
        lia).
  rewrite (somatorio_perm
             (Permutation_map score_engajamento linhas_ranking_completo)).
  pose proof (cobertura par_eqb par_leb chave_autor par_eqb_spec Hkey) as Hcov.
  pose proof (grupos_NoDup par_eqb par_leb par_eqb_spec chave_autor df) as Hnd.
  unfold ranking_por_autor. rewrite map_map. cbn [score_engajamento].
  rewrite (@grupos_particao_soma _ par_eqb par_eqb_spec _
             chave_autor Engajamento.peso_interacao _ df Hnd Hcov).
  now rewrite soma_coluna.
Qed.

End TotaisOrdenados.

(* ------------------------------------------------------------------ *)
(** * Distinct counts and range ends *)






(* ------------------------------------------------------------------ *)
(** * Loading one file *)

Section IngestaoFatos.

Variable Path : Type.
Variable path_of : string -> Path.
Variable is_absolute : Path -> bool.
Variable truediv : Path -> Path -> Path.
Variable DEFAULT_RAW_DIR : Path.
Variable path_exists : Path -> bool.

Lemma empty_false (A : Type) (df : DataFrame A) : empty df = false <-> df <> [].
Proof. destruct df; simpl; split; congruence. Qed.

Lemma load_csv_dataset_Carregado (A : Type)
    (read_csv : Path -> DatasetConfig -> string + DataFrame A)
    (dataset : DatasetConfig) (base_dir : option Path) (df : DataFrame A) :
  let csv_path :=
    _resolve_path path_of is_absolute truediv DEFAULT_RAW_DIR
                  (filename dataset) base_dir in
  load_csv_dataset path_of is_absolute truediv DEFAULT_RAW_DIR path_exists
                   read_csv dataset base_dir = Carregado df
  <-> path_exists csv_path = true
      /\ read_csv csv_path dataset = inr df
      /\ df <> [].
Proof.
  cbv zeta. unfold load_csv_dataset.
  destruct (path_exists _) eqn:Ex; cbn [negb].
  - destruct (read_csv _ dataset) as [exc|df'] eqn:Er.
    + split; [discriminate|]. intros (_ & H & _). discriminate H.
    + destruct (empty df') eqn:Ee.
      * split; [discriminate|]. intros (_ & H & Hne). injection H as ->.
        apply empty_false in Hne. congruence.
      * apply empty_false in Ee. split.
        -- intros H. injection H as ->. auto.
        -- intros (_ & H & _). injection H as ->. reflexivity.
  - split; [discriminate|]. intros (H & _). discriminate H.
Qed.

End IngestaoFatos.

Lemma tres_cargas_Carregado (P : Type) (lu : Carga P (DataFrame Usuario.t))
    (lc : Carga P (DataFrame Conteudo.t)) (li : Carga P (DataFrame Interacao.t))
    (ds : Datasets) :
  tres_cargas lu lc li = Carregado ds
  <-> exists u c i,
        ds = mkDatasets (Some u) (Some c) (Some i)
        /\ lu = Carregado u /\ lc = Carregado c /\ li = Carregado i.
Proof.
  unfold tres_cargas. split.
  - destruct lu as [u|eu]; [|discriminate].
    destruct lc as [c|ec]; [|discriminate].
    destruct li as [i|ei]; [|discriminate].
    cbn [carga_bind]. intros H. injection H as <-.
    exists u, c, i. repeat split; reflexivity.
  - intros (u & c & i & -> & -> & -> & ->). reflexivity.
Qed.

Lemma tres_cargas_Falha (P : Type) (lu : Carga P (DataFrame Usuario.t))
    (lc : Carga P (DataFrame Conteudo.t)) (li : Carga P (DataFrame Interacao.t))
    (e : DataIngestionError P) :
  tres_cargas lu lc li = Falha e
  <-> lu = Falha e
      \/ (exists u, lu = Carregado u /\ lc = Falha e)
      \/ (exists u c, lu = Carregado u /\ lc = Carregado c /\ li = Falha e).
Proof.
  unfold tres_cargas. split.
  - destruct lu as [u|eu]; cbn [carga_bind];
      [|intros H; injection H as ->; left; reflexivity].
    destruct lc as [c|ec]; cbn [carga_bind];
      [|intros H; injection H as ->; right; left; exists u;
        split; reflexivity].
    destruct li as [i|ei]; cbn [carga_bind]; [discriminate|].
    intros H. injection H as ->. right. right. exists u, c.
    repeat split; reflexivity.
  - intros [->|[(u & -> & ->)|(u & c & -> & -> & ->)]]; reflexivity.
Qed.


(* ------------------------------------------------------------------ *)
(** * Facts about the shape of normalized text *)

Module FormaFatos.
Import Texto Forma.















Lemma rstrip_espacos ws : so_espacos ws = true -> rstrip ws = EmptyString.
Proof.
  induction ws as [|c r IH]; [reflexivity|]. simpl.
  intros H. apply andb_true_iff in H. destruct H as [Hc Hr].
  now rewrite (IH Hr), Hc.
Qed.

Lemma lstrip_espacos ws s :
  so_espacos ws = true -> lstrip (ws ++ s) = lstrip s.
Proof.
  induction ws as [|c r IH]; [reflexivity|]. simpl.
  intros H. apply andb_true_iff in H. destruct H as [Hc Hr].
  rewrite Hc. now apply IH.
Qed.

Lemma rstrip_app_espacos s ws :
  so_espacos ws = true -> rstrip (s ++ ws) = rstrip s.
Proof.
  intros H. induction s as [|c r IH]; simpl.
  - now apply rstrip_espacos.
  - now rewrite IH.
Qed.

Lemma lstrip_so_espacos ws : so_espacos ws = true -> lstrip ws = EmptyString.
Proof.
  induction ws as [|c r IH]; [reflexivity|]. simpl.
  intros H. apply andb_true_iff in H. destruct H as [Hc Hr].
  rewrite Hc. now apply IH.
Qed.

Lemma strip_app_espacos s ws :
  so_espacos ws = true -> strip (s ++ ws) = strip s.
Proof.
  intros H. unfold strip. induction s as [|c r IH]; simpl.
  - now rewrite lstrip_so_espacos.
  - destruct (is_space c); [exact IH|].
    change (String c (r ++ ws)) with (String c r ++ ws)%string.
    now apply rstrip_app_espacos.
Qed.

Lemma strip_padded ws1 s ws2 :
  so_espacos ws1 = true -> so_espacos ws2 = true ->
  strip (ws1 ++ s ++ ws2) = strip s.
Proof.
  intros H1 H2. unfold strip. rewrite lstrip_espacos by exact H1.
  apply (strip_app_espacos s ws2 H2).
Qed.

End FormaFatos.

(* ------------------------------------------------------------------ *)
(** * Lines of joined text *)

Lemma sem_quebra_app (a b : string) :
  sem_quebra (a ++ b) = sem_quebra a && sem_quebra b.
Proof.
  induction a as [|c r IH]; simpl; [reflexivity|].
  rewrite IH. now rewrite andb_assoc.
Qed.

Lemma split_linhas_nonempty (s : string) : split_linhas s <> [].
Proof.
  destruct s as [|c r]; simpl; [discriminate|].
  destruct (Ascii.eqb c nova_linha); [discriminate|].
  destruct (split_linhas r); discriminate.
Qed.

Lemma split_linhas_sem_quebra (s : string) :
  sem_quebra s = true -> split_linhas s = [s].
Proof.
  induction s as [|c r IH]; simpl; [reflexivity|].
  intros H. apply andb_true_iff in H. destruct H as [Hc Hr].
  apply negb_true_iff in Hc. rewrite Hc, (IH Hr). reflexivity.
Qed.

Lemma split_linhas_app (x r : string) :
  sem_quebra x = true ->
  split_linhas (x ++ NL ++ r) = x :: split_linhas r.
Proof.
  induction x as [|c x' IH]; simpl.
  - intros _. reflexivity.
  - intros H. apply andb_true_iff in H. destruct H as [Hc Hr].
    apply negb_true_iff in Hc. rewrite Hc.
    change (x' ++ String nova_linha r)%string with (x' ++ NL ++ r)%string.
    now rewrite (IH Hr).
Qed.

Lemma split_linhas_join (l : list string) :
  l <> [] -> Forall (fun x => sem_quebra x = true) l ->
  split_linhas (join NL l) = l.
Proof.
  induction l as [|x r IH]; [congruence|]. intros _ Hall.
  inversion Hall as [|? ? Hx Hr]; subst.
  destruct r as [|y r'].
  - simpl. now apply split_linhas_sem_quebra.
  - change (join NL (x :: y :: r')) with (x ++ NL ++ join NL (y :: r'))%string.
    rewrite split_linhas_app by exact Hx. f_equal.
    apply IH; [discriminate|exact Hr].
Qed.

Lemma sem_quebra_join (sep : string) (l : list string) :
  sem_quebra sep = true -> Forall (fun x => sem_quebra x = true) l ->
  sem_quebra (join sep l) = true.
Proof.
  intros Hsep. induction 1 as [|x r Hx Hr IH]; [reflexivity|].
  destruct r as [|y r']; [exact Hx|].
  change (join sep (x :: y :: r')) with (x ++ sep ++ join sep (y :: r'))%string.
  now rewrite !sem_quebra_app, Hx, Hsep, IH.
Qed.

Lemma sem_quebra_linha_markdown (cs : list string) :
  Forall (fun x => sem_quebra x = true) cs ->
  sem_quebra (linha_markdown cs) = true.
Proof.
  intros H. unfold linha_markdown.
  rewrite !sem_quebra_app, (sem_quebra_join " | ") by (reflexivity || exact H).
  reflexivity.
Qed.

(** ** Evaluation in order *)

Lemma em_ordem_Ok (A B : Type) (f : A -> Resultado B) (g : A -> B)
    (l : list A) :
  (forall x, In x l -> f x = Ok (g x)) -> em_ordem f l = Ok (map g l).
Proof.
  induction l as [|x r IH]; intros H; [reflexivity|].
  cbn [em_ordem map]. rewrite (H x) by now left. cbn [bind].
  rewrite IH by (intros; apply H; now right). reflexivity.
Qed.

Lemma em_ordem_Raise (A B : Type) (f : A -> Resultado B) (l : list A)
    (e : Excecao) :
  em_ordem f l = Raise e -> exists x, In x l /\ f x = Raise e.
Proof.
  induction l as [|x r IH]; [discriminate|].
  cbn [em_ordem]. destruct (f x) as [y|e'] eqn:E; cbn [bind].
  - destruct (em_ordem f r) as [ys|e''] eqn:Er; cbn [bind]; [discriminate|].
    intros H. injection H as ->. destruct (IH eq_refl) as (x' & Hx & Hf).
    exists x'. split; [now right|exact Hf].
  - intros H. injection H as ->. exists x. split; [now left|exact E].
Qed.

Lemma em_ordem_fails (A B : Type) (f : A -> Resultado B) (l : list A)
    (x : A) (e : Excecao) :
  In x l -> f x = Raise e -> exists e', em_ordem f l = Raise e'.
Proof.
  induction l as [|y r IH]; [intros []|].
  intros [->|Hin] Hf; cbn [em_ordem].
  - rewrite Hf. now exists e.
  - destruct (f y) as [b|e1]; cbn [bind]; [|now exists e1].
    destruct (IH Hin Hf) as [e' ->]. now exists e'.
Qed.

(* ------------------------------------------------------------------ *)
(** * Sorted prefixes and weight bounds *)

Lemma StronglySorted_app_inv (A : Type) (R : A -> A -> Prop) (l1 l2 : list A) :
  StronglySorted R (l1 ++ l2) ->
  forall a b, In a l1 -> In b l2 -> R a b.
Proof.
  induction l1 as [|x r IH]; intros H a b Ha Hb; [destruct Ha|].
  simpl in H. inversion H as [|? ? Hs Hx]; subst.
  destruct Ha as [<-|Ha].
  - rewrite Forall_forall in Hx. apply Hx, in_or_app. now right.
  - now apply IH.
Qed.



(* ------------------------------------------------------------------ *)
(** * The cleaning rules *)


(** C8. Each of the three cleaners is idempotent: cleaning its own output
    gives the same collection, index included. *)
Theorem cleaning_idempotent (parse : string -> option Z)
    (u : DataFrame Usuario.t) (c : DataFrame Conteudo.t)
    (i : DataFrame Interacao.t) :
  clean_usuarios (clean_usuarios u) = clean_usuarios u
  /\ clean_conteudos parse (clean_conteudos parse c) = clean_conteudos parse c
  /\ clean_interacoes parse (clean_interacoes parse i)
     = clean_interacoes parse i.
Proof.
  split; [|split].
  - apply clean_usuarios_idem.
  - apply clean_conteudos_idem.
  - apply clean_interacoes_idem.
Qed.


(* ------------------------------------------------------------------ *)
(** * The engagement dataset builder *)






(* ------------------------------------------------------------------ *)
(** * The metrics engine *)



(** C4, as stated, fails for a negative [top_n]: [head(-1)] drops the last
    row only, so a ranking of two authors keeps one row. *)
Lemma top_autores_negative_top_n_not_empty :
  linhas (top_autores_por_engajamento ordenar_desc_estavel Exemplo.engajamento
                                      (Some (-1)%Z))
  = [mkLinhaRanking 1 "Ana" 4].
Proof. vm_compute. reflexivity. Qed.

(** C4, amended.  The ranking has one row per author id and name with the
    sum of the weights of that author's rows, in an order of descending
    score (the sort is pandas' default one, which fixes no order among equal
    scores), cut by [head]: the first [top_n] rows when [top_n >= 0], all but
    the last [-top_n] rows when it is negative, 5 rows when it is not given;
    [top_n = 0] gives the empty table. *)
Theorem top_autores_ranking
    (sort : forall A : Type, (A -> Z) -> list A -> list A)
    (df : DataFrame Engajamento.t) :
  contrato_ordenacao sort ->
  exists R : list LinhaRanking,
    Permutation R (ranking_por_autor df)
    /\ StronglySorted
         (fun a b => (score_engajamento b <= score_engajamento a)%Z) R
    /\ NoDup (map (fun row => (rk_autor_id row, rk_autor_nome row)) R)
    /\ (forall a nome,
          (exists r, In r (linhas df)
                     /\ Engajamento.autor_id r = Some a
                     /\ Engajamento.autor_nome r = Some nome)
          <-> (exists row, In row R /\ rk_autor_id row = a
                           /\ rk_autor_nome row = nome))
    /\ Forall (fun row =>
         score_engajamento row
         = soma (map Engajamento.peso_interacao
                     (grupo par_eqb chave_autor
                            (rk_autor_id row, rk_autor_nome row) df))) R
    /\ (forall k r,
          In r (grupo par_eqb chave_autor k df)
          <-> In r (linhas df)
              /\ Engajamento.autor_id r = Some (fst k)
              /\ Engajamento.autor_nome r = Some (snd k))
    /\ (forall n,
          linhas (top_autores_por_engajamento sort df (Some n))
          = if (0 <=? n)%Z then firstn (Z.to_nat n) R
            else firstn (length R - Z.to_nat (- n)) R)
    /\ top_autores_por_engajamento sort df (Some 0%Z) = []
    /\ top_autores_por_engajamento sort df None
       = top_autores_por_engajamento sort df (Some 5%Z).
Proof.
  intros Hsort.
  set (R := linhas (reset_index
                      (sort _ (fun ir => score_engajamento (snd ir))
                            (reindexar (ranking_por_autor df))))).
  destruct (linhas_ordenadas Hsort score_engajamento (ranking_por_autor df))
    as [Hperm Hsorted].
  fold R in Hperm, Hsorted.
  assert (Hkeys : map (fun row => (rk_autor_id row, rk_autor_nome row))
                      (ranking_por_autor df)
                  = grupos par_eqb par_leb chave_autor df).
  { unfold ranking_por_autor. rewrite map_map. simpl.
    rewrite (map_ext _ (fun k => k)) by (now intros [a n]). apply map_id. }
  exists R. split; [exact Hperm|]. split; [exact Hsorted|].
  split; [|split; [|split; [|split; [|split; [|split]]]]].
  - eapply Permutation_NoDup.
    + apply Permutation_map, Permutation_sym, Hperm.
    + rewrite Hkeys. apply (grupos_NoDup par_eqb par_leb par_eqb_spec).
  - intros a nome. split.
    + intros (r & Hr & Ha & Hn).
      assert (Hk : In (a, nome) (grupos par_eqb par_leb chave_autor df)).
      { apply (grupos_In par_eqb par_leb par_eqb_spec). exists r. split; [exact Hr|].
        now apply chave_autor_Some. }
      rewrite <- Hkeys in Hk. apply in_map_iff in Hk.
      destruct Hk as (row & E & Hrow). exists row.
      split; [now apply (Permutation_in _ (Permutation_sym Hperm))|].
      now inversion E.
    + intros (row & Hrow & <- & <-).
      apply (Permutation_in _ Hperm) in Hrow.
      assert (Hk : In (rk_autor_id row, rk_autor_nome row)
                      (grupos par_eqb par_leb chave_autor df)).
      { rewrite <- Hkeys. apply in_map_iff. now exists row. }
      apply (grupos_In par_eqb par_leb par_eqb_spec) in Hk. destruct Hk as (r & Hr & Hk).
      apply chave_autor_Some in Hk. now exists r.
  - apply Forall_forall. intros row Hrow.
    apply (Permutation_in _ Hperm) in Hrow. unfold ranking_por_autor in Hrow.
    apply in_map_iff in Hrow. destruct Hrow as ([a n] & <- & _). reflexivity.
  - intros k r. rewrite (grupo_In par_eqb par_eqb_spec), chave_autor_Some. reflexivity.
  - intros n. now rewrite linhas_top_autores.
  - assert (H : linhas (top_autores_por_engajamento sort df (Some 0%Z)) = []).
    { now rewrite linhas_top_autores. }
    unfold linhas in H. now apply map_eq_nil in H.
  - reflexivity.
Qed.

Lemma top_autores_ranking_witness :
  contrato_ordenacao ordenar_desc_estavel
  /\ linhas (top_autores_por_engajamento ordenar_desc_estavel
                                         Exemplo.engajamento (Some 1%Z))
     = [mkLinhaRanking 1 "Ana" 4]
  /\ exists R : list LinhaRanking,
       Permutation R (ranking_por_autor Exemplo.engajamento)
       /\ linhas (top_autores_por_engajamento ordenar_desc_estavel
                                              Exemplo.engajamento (Some 1%Z))
          = firstn 1 R.
Proof.
  split; [exact contrato_ordenar_desc_estavel|].
  split; [vm_compute; reflexivity|].
  destruct (top_autores_ranking Exemplo.engajamento
              contrato_ordenar_desc_estavel)
    as (R & Hperm & _ & _ & _ & _ & _ & Hhead & _).
  exists R. split; [exact Hperm|]. exact (Hhead 1%Z).
Defined.

(** C3. On a non-empty unified dataset (every row with its interaction
    timestamp) the timeline has one row per calendar day from the first day
    [lo] to the last day [hi] with an interaction, [hi - lo + 1] rows in
    all, dates strictly ascending; each row carries the number of
    interactions of its day and the sum of their weights, both 0 on a day
    without interaction. *)
Theorem timeline_continuous_days (df : DataFrame Engajamento.t) :
  df <> [] ->
  Forall (fun r => exists t, Engajamento.data_interacao r = DTimestamp t)
         (linhas df) ->
  exists tl lo hi,
    timeline_engajamento df = Ok tl
    /\ (exists r, In r (linhas df) /\ dia_da_linha r = Some lo)
    /\ (exists r, In r (linhas df) /\ dia_da_linha r = Some hi)
    /\ (forall r d, In r (linhas df) -> dia_da_linha r = Some d ->
          (lo <= d <= hi)%Z)
    /\ length tl = Z.to_nat (hi - lo + 1)
    /\ (1 <= hi - lo + 1)%Z
    /\ map tl_data_interacao (linhas tl)
       = map (fun d => (d * ns_por_dia)%Z) (intervalo lo hi)
    /\ (forall d, (lo <= d <= hi)%Z ->
          In (d * ns_por_dia)%Z (map tl_data_interacao (linhas tl)))
    /\ StronglySorted Z.lt (map tl_data_interacao (linhas tl))
    /\ Forall (fun row =>
         exists d,
           (lo <= d <= hi)%Z
           /\ tl_data_interacao row = (d * ns_por_dia)%Z
           /\ tl_interacoes row
              = Z.of_nat (length (grupo Z.eqb dia_da_linha d df))
           /\ tl_score row
              = soma (map Engajamento.peso_interacao
                          (grupo Z.eqb dia_da_linha d df))
           /\ (forall r, In r (grupo Z.eqb dia_da_linha d df)
                         <-> In r (linhas df) /\ dia_da_linha r = Some d)
           /\ ((forall r, In r (linhas df) -> dia_da_linha r <> Some d) ->
               tl_interacoes row = 0%Z /\ tl_score row = 0%Z))
         (linhas tl).
Proof.
  intros Hne Hall.
  assert (Hdt : forallb tipo_datetime (coluna Engajamento.data_interacao df)
                = true).
  { apply forallb_forall. intros x Hx. rewrite coluna_linhas in Hx.
    apply in_map_iff in Hx. destruct Hx as (r & <- & Hr).
    rewrite Forall_forall in Hall. destruct (Hall r Hr) as [t ->]. reflexivity. }
  destruct (presentes (coluna dia_da_linha df)) as [|d ds] eqn:HD.
  { exfalso. destruct df as [|[n r] rest]; [now apply Hne|].
    assert (Hr : In r (linhas ((n, r) :: rest))) by now left.
    rewrite Forall_forall in Hall. destruct (Hall r Hr) as [t Et].
    assert (Hin : In (dia_de t) (presentes (coluna dia_da_linha ((n, r) :: rest)))).
    { apply dia_da_linha_In. exists r. split; [exact Hr|].
      unfold dia_da_linha. now rewrite Et. }
    rewrite HD in Hin. destruct Hin. }
  destruct (minimo_spec d ds) as [Hlo_in Hlo].
  destruct (maximo_spec d ds) as [Hhi_in Hhi].
  set (lo := minimo d ds) in *. set (hi := maximo d ds) in *.
  assert (Hdays : forall x, In x (d :: ds)
                   <-> exists r, In r (linhas df) /\ dia_da_linha r = Some x).
  { intros x. rewrite <- HD. apply dia_da_linha_In. }
  assert (Hlohi : (lo <= hi)%Z).
  { specialize (Hlo d (or_introl eq_refl)).
    specialize (Hhi d (or_introl eq_refl)). lia. }
  eexists _, lo, hi. split.
  { unfold timeline_engajamento. rewrite Hdt, HD. fold lo hi. reflexivity. }
  rewrite linhas_reindexar, map_map. cbn [tl_data_interacao].
  split; [now apply Hdays|]. split; [now apply Hdays|].
  split.
  { intros r x Hr Hx.
    assert (Hin : In x (d :: ds)) by (apply Hdays; now exists r).
    split; [now apply Hlo|now apply Hhi]. }
  split.
  { unfold reindexar. rewrite length_combine, length_seq, length_map,
      Nat.min_id. apply intervalo_length. }
  split; [lia|]. split; [reflexivity|].
  split.
  { intros x Hx. apply in_map_iff. exists x. split; [reflexivity|].
    now apply intervalo_In. }
  split.
  { apply StronglySorted_map.
    assert (H : forall l, StronglySorted Z.lt l ->
                  StronglySorted
                    (fun a b => (a * ns_por_dia < b * ns_por_dia)%Z) l).
    { induction 1 as [|x l Hl IH Hx]; constructor; [exact IH|].
      rewrite Forall_forall in *. intros y Hy. specialize (Hx y Hy).
      unfold ns_por_dia. lia. }
    apply H, intervalo_sorted. }
  apply Forall_forall. intros row Hrow. apply in_map_iff in Hrow.
  destruct Hrow as (x & <- & Hx). apply intervalo_In in Hx.
  exists x. cbn [tl_data_interacao tl_interacoes tl_score].
  split; [exact Hx|]. split; [reflexivity|].
  split; [unfold contar; now rewrite length_map|].
  split; [reflexivity|].
  split; [intros r; apply (grupo_In Z.eqb Z_eqb_spec)|].
  intros Hnone. rewrite (grupo_vazio Z.eqb Z_eqb_spec dia_da_linha df Hnone). split; reflexivity.
Qed.

Lemma timeline_continuous_days_witness :
  Exemplo.engajamento <> []
  /\ exists tl,
       timeline_engajamento Exemplo.engajamento = Ok tl
       /\ length tl = 4%nat
       /\ map (fun row => (tl_interacoes row, tl_score row)) (linhas tl)
          = [(2, 4); (0, 0); (0, 0); (1, 2)]%Z.
Proof.
  assert (Hne : Exemplo.engajamento <> []) by (vm_compute; discriminate).
  assert (Hall : Forall (fun r => exists t,
                           Engajamento.data_interacao r = DTimestamp t)
                        (linhas Exemplo.engajamento)).
  { vm_compute. repeat constructor; eexists; reflexivity. }
  split; [exact Hne|].
  destruct (timeline_continuous_days Hne Hall) as (tl & lo & hi & Hok & _).
  exists tl. revert Hok. vm_compute. intros Hok. injection Hok as <-.
  repeat split; reflexivity.
Defined.

(** The timeline counts calendar days, not elapsed time: two interactions two
    hours apart on either side of midnight give two rows. *)
Lemma timeline_counts_calendar_days :
  let t1 := (23 * 3600000000000)%Z in
  let t2 := (25 * 3600000000000)%Z in
  let linha t :=
    Engajamento.mk 1 101 1 (Some "curtida"%string) (DTimestamp t) (Some 1%Z)
                   (Some 1%Z) (Some "video"%string) (DTimestamp 0)
                   (Some "Ana"%string) None (Some "Ana"%string) None
                   (Some (dia_de t)) in
  ((t2 - t1) / ns_por_dia + 1 = 1)%Z
  /\ exists tl,
       timeline_engajamento (reindexar [linha t1; linha t2]) = Ok tl
       /\ length tl = 2%nat.
Proof. cbv zeta. split; [reflexivity|]. eexists. split; reflexivity. Qed.



(* ------------------------------------------------------------------ *)
(** * More about the builder *)







(* ------------------------------------------------------------------ *)
(** * More about the metrics *)


(** X6. The category breakdown has one row per distinct category with the
    number of its rows and the sum of their weights, in an order of
    descending score, under a fresh index. *)
Theorem interacoes_por_categoria_table
    (sort : forall A : Type, (A -> Z) -> list A -> list A)
    (df : DataFrame Engajamento.t) :
  contrato_ordenacao sort ->
  let out := linhas (interacoes_por_categoria sort df) in
  NoDup (map cat_categoria out)
  /\ (forall s,
        In s (map cat_categoria out)
        <-> exists r, In r (linhas df) /\ Engajamento.categoria r = Some s)
  /\ Forall (fun row =>
       cat_interacoes row
       = Z.of_nat (length (grupo String.eqb Engajamento.categoria
                                 (cat_categoria row) df))
       /\ cat_score row
          = soma (map Engajamento.peso_interacao
                      (grupo String.eqb Engajamento.categoria
                             (cat_categoria row) df))) out
  /\ (forall s r,
        In r (grupo String.eqb Engajamento.categoria s df)
        <-> In r (linhas df) /\ Engajamento.categoria r = Some s)
  /\ StronglySorted (fun a b => (cat_score b <= cat_score a)%Z) out
  /\ map fst (interacoes_por_categoria sort df) = seq 0 (length out).
Proof.
  intros Hsort. cbv zeta.
  destruct (linhas_interacoes_por_categoria Hsort df) as [Hperm Hsorted].
  assert (Hkeys : map cat_categoria (tabela_por_categoria df)
                  = grupos String.eqb String.leb Engajamento.categoria df).
  { unfold tabela_por_categoria. rewrite map_map. apply map_id. }
  split; [|split; [|split; [|split; [|split]]]].
  - eapply Permutation_NoDup.
    + apply Permutation_map, Permutation_sym, Hperm.
    + rewrite Hkeys. apply (grupos_NoDup String.eqb String.leb string_eqb_spec).
  - intros s.
    rewrite <- (grupos_In String.eqb String.leb string_eqb_spec
                  Engajamento.categoria df s).
    rewrite <- Hkeys. split; apply Permutation_in.
    + apply Permutation_map, Hperm.
    + apply Permutation_map, Permutation_sym, Hperm.
  - apply Forall_forall. intros row Hrow.
    apply (Permutation_in _ Hperm) in Hrow. unfold tabela_por_categoria in Hrow.
    apply in_map_iff in Hrow. destruct Hrow as (k & <- & _).
    cbn [cat_interacoes cat_score cat_categoria]. unfold contar.
    rewrite length_map. split; reflexivity.
  - intros s r. apply (grupo_In String.eqb string_eqb_spec).
  - exact Hsorted.
  - unfold interacoes_por_categoria, reset_index.
    now rewrite indice_reindexar, linhas_reindexar.
Qed.

Lemma interacoes_por_categoria_table_witness :
  contrato_ordenacao ordenar_desc_estavel
  /\ map (fun row => (cat_categoria row, cat_interacoes row, cat_score row))
         (linhas (interacoes_por_categoria ordenar_desc_estavel
                                           Exemplo.engajamento))
     = [("video"%string, 2%Z, 4%Z); ("texto"%string, 1%Z, 2%Z)]
  /\ NoDup (map cat_categoria
                (linhas (interacoes_por_categoria ordenar_desc_estavel
                                                  Exemplo.engajamento))).
Proof.
  split; [exact contrato_ordenar_desc_estavel|].
  split; [vm_compute; reflexivity|].
  exact (proj1 (@interacoes_por_categoria_table ordenar_desc_estavel
                  Exemplo.engajamento contrato_ordenar_desc_estavel)).
Defined.

(** X7. On a dataset of complete rows the metrics agree on the totals: the
    category scores, and the scores of a ranking long enough to hold every
    author, add up to the sum of all weights; the category counts and the
    type counts add up to the number of rows. *)
Theorem metrics_totals_agree
    (sort : forall A : Type, (A -> Z) -> list A -> list A)
    (df : DataFrame Engajamento.t) :
  contrato_ordenacao sort ->
  Forall linha_completa (linhas df) ->
  let total := soma (coluna Engajamento.peso_interacao df) in
  somatorio (map cat_score (linhas (interacoes_por_categoria sort df))) = total
  /\ somatorio (map cat_interacoes (linhas (interacoes_por_categoria sort df)))
     = Z.of_nat (length df)
  /\ somatorio (map quantidade (linhas (distribuicao_tipo_interacao sort df)))
     = Z.of_nat (length df)
  /\ (forall n,
        (Z.of_nat (length (ranking_por_autor df)) <= n)%Z ->
        somatorio (map score_engajamento
                       (linhas (top_autores_por_engajamento sort df (Some n))))
        = total).
Proof.
  intros Hsort Hall. cbv zeta. rewrite Forall_forall in Hall.
  assert (Hk : forall r, In r (linhas df) ->
                 Engajamento.categoria r <> None
                 /\ Engajamento.tipo_interacao r <> None
                 /\ chave_autor r <> None).
  { intros r Hr. now destruct (linha_completa_chaves (Hall r Hr)) as (_ & H). }
  destruct (categorias_totais Hsort df (fun r Hr => proj1 (Hk r Hr)))
    as [Hc1 Hc2].
  split; [exact Hc2|]. split; [exact Hc1|].
  split.
  - apply (distribuicao_total Hsort). intros r Hr. apply (Hk r Hr).
  - intros n Hn. apply (ranking_total Hsort).
    + intros r Hr. apply (Hk r Hr).
    + now rewrite <- ranking_length.
Qed.

Lemma metrics_totals_agree_witness :
  contrato_ordenacao ordenar_desc_estavel
  /\ Forall linha_completa (linhas Exemplo.engajamento)
  /\ somatorio (map cat_score
                    (linhas (interacoes_por_categoria ordenar_desc_estavel
                                                      Exemplo.engajamento)))
     = 6%Z.
Proof.
  split; [exact contrato_ordenar_desc_estavel|].
  assert (H : Forall linha_completa (linhas Exemplo.engajamento)).
  { destruct (build_linhas_completas Iso.parse Exemplo.usuarios
                Exemplo.conteudos Exemplo.interacoes) as (df & Hok & _ & Hc).
    unfold Exemplo.engajamento, Exemplo.datasets. now rewrite Hok. }
  split; [exact H|].
  rewrite (proj1 (@metrics_totals_agree ordenar_desc_estavel Exemplo.engajamento
                    contrato_ordenar_desc_estavel H)).
  vm_compute. reflexivity.
Defined.

(** X8. For [top_n >= 0] the ranking has [top_n] rows, or one per author
    when there are fewer authors; without [top_n] it has 5 rows at most. *)
Theorem top_autores_row_count
    (sort : forall A : Type, (A -> Z) -> list A -> list A)
    (df : DataFrame Engajamento.t) (n : Z) :
  contrato_ordenacao sort ->
  (0 <= n)%Z ->
  length (top_autores_por_engajamento sort df (Some n))
  = Nat.min (Z.to_nat n) (length (ranking_por_autor df))
  /\ (length (top_autores_por_engajamento sort df (Some n)) <= Z.to_nat n)%nat
  /\ (length (top_autores_por_engajamento sort df None) <= 5)%nat.
Proof.
  intros Hsort Hn.
  pose proof (top_autores_length Hsort df Hn) as H.
  rewrite <- ranking_length in H.
  split; [exact H|]. split; [rewrite H; lia|].
  change (top_autores_por_engajamento sort df None)
    with (top_autores_por_engajamento sort df (Some 5%Z)).
  rewrite (top_autores_length Hsort df (n:=5)) by lia. lia.
Qed.

Lemma top_autores_row_count_witness :
  contrato_ordenacao ordenar_desc_estavel
  /\ length (top_autores_por_engajamento ordenar_desc_estavel
                                         Exemplo.engajamento (Some 1%Z))
     = 1%nat.
Proof.
  split; [exact contrato_ordenar_desc_estavel|].
  rewrite (proj1 (@top_autores_row_count ordenar_desc_estavel
                    Exemplo.engajamento 1%Z contrato_ordenar_desc_estavel
                    ltac:(lia))).
  vm_compute. reflexivity.
Defined.



(* ------------------------------------------------------------------ *)
(** * The pipeline, end to end *)



(* ------------------------------------------------------------------ *)
(** * Ingestion and what follows it *)

(** X11. [load_all_datasets] returns a map exactly when each of the three
    files exists at its resolved path, is read without exception and has at
    least one row; the map then holds the three frames as read, under their
    three keys.  Otherwise it fails with the error of the first file that
    fails, in the order usuarios, conteudos, interacoes. *)
Theorem load_all_datasets_all_or_first_error
    (Path : Type) (path_of : string -> Path) (is_absolute : Path -> bool)
    (truediv : Path -> Path -> Path) (DEFAULT_RAW_DIR : Path)
    (path_exists : Path -> bool)
    (read_u : Path -> DatasetConfig -> string + DataFrame Usuario.t)
    (read_c : Path -> DatasetConfig -> string + DataFrame Conteudo.t)
    (read_i : Path -> DatasetConfig -> string + DataFrame Interacao.t)
    (base_dir : option Path) :
  let caminho cfg :=
    _resolve_path path_of is_absolute truediv DEFAULT_RAW_DIR
                  (filename cfg) base_dir in
  let carregar (A : Type) (read : Path -> DatasetConfig -> string + DataFrame A)
               cfg :=
    load_csv_dataset path_of is_absolute truediv DEFAULT_RAW_DIR path_exists
                     read cfg base_dir in
  let todos :=
    load_all_datasets path_of is_absolute truediv DEFAULT_RAW_DIR path_exists
                      read_u read_c read_i base_dir in
  (forall ds,
      todos = Carregado ds
      <-> exists u c i,
            ds = mkDatasets (Some u) (Some c) (Some i)
            /\ path_exists (caminho DATASETS_usuarios) = true
            /\ read_u (caminho DATASETS_usuarios) DATASETS_usuarios = inr u
            /\ u <> []
            /\ path_exists (caminho DATASETS_conteudos) = true
            /\ read_c (caminho DATASETS_conteudos) DATASETS_conteudos = inr c
            /\ c <> []
            /\ path_exists (caminho DATASETS_interacoes) = true
            /\ read_i (caminho DATASETS_interacoes) DATASETS_interacoes = inr i
            /\ i <> [])
  /\ (forall e,
        todos = Falha e
        <-> carregar _ read_u DATASETS_usuarios = Falha e
            \/ (exists u,
                  carregar _ read_u DATASETS_usuarios = Carregado u
                  /\ carregar _ read_c DATASETS_conteudos = Falha e)
            \/ (exists u c,
                  carregar _ read_u DATASETS_usuarios = Carregado u
                  /\ carregar _ read_c DATASETS_conteudos = Carregado c
                  /\ carregar _ read_i DATASETS_interacoes = Falha e)).
Proof.
  cbv zeta.
  change (load_all_datasets path_of is_absolute truediv DEFAULT_RAW_DIR
            path_exists read_u read_c read_i base_dir)
    with (tres_cargas
            (load_csv_dataset path_of is_absolute truediv DEFAULT_RAW_DIR
               path_exists read_u DATASETS_usuarios base_dir)
            (load_csv_dataset path_of is_absolute truediv DEFAULT_RAW_DIR
               path_exists read_c DATASETS_conteudos base_dir)
            (load_csv_dataset path_of is_absolute truediv DEFAULT_RAW_DIR
               path_exists read_i DATASETS_interacoes base_dir)).
  split.
  - intros ds. rewrite tres_cargas_Carregado. split.
    + intros (u & c & i & E & Hu & Hc & Hi).
      apply load_csv_dataset_Carregado in Hu, Hc, Hi.
      exists u, c, i. tauto.
    + intros (u & c & i & E & Eu & Ru & Nu & Ec & Rc & Nc & Ei & Ri & Ni).
      exists u, c, i. split; [exact E|].
      split; [|split]; apply load_csv_dataset_Carregado; auto.
  - intros e. apply tres_cargas_Falha.
Qed.



(* ------------------------------------------------------------------ *)
(** * More about the cleaners *)


(** X14. Padding with white space and letter case do not matter to
    [_normalize_str_series]: two texts that agree up to case, one of them
    padded on both sides, normalize to the same cell. *)
Theorem normalize_ignores_padding_and_case (ws1 s ws2 t : string) :
  Forma.so_espacos ws1 = true ->
  Forma.so_espacos ws2 = true ->
  Texto.lower s = Texto.lower t ->
  _normalize_str_series [Some (ws1 ++ s ++ ws2)%string]
  = _normalize_str_series [Some t].
Proof.
  intros H1 H2 E. rewrite !_normalize_str_series_map.
  cbn [map]. unfold normalizar. cbn [option_map]. do 2 f_equal.
  rewrite FormaFatos.strip_padded by assumption.
  now rewrite <- !TextoFatos.strip_lower, E.
Qed.

Lemma normalize_ignores_padding_and_case_witness :
  _normalize_str_series [Some "  Video "%string]
  = _normalize_str_series [Some "VIDEO"%string].
Proof.
  apply (@normalize_ignores_padding_and_case "  " "Video" " " "VIDEO");
    reflexivity.
Defined.


(** X16. When the raw users carry pairwise different ids, [clean_usuarios]
    drops no row: it only trims and lower-cases, row by row. *)
Theorem clean_usuarios_unique_ids (df : DataFrame Usuario.t) :
  NoDup (map Usuario.usuario_id (linhas df)) ->
  linhas (clean_usuarios df) = map limpar_usuario (linhas df)
  /\ length (clean_usuarios df) = length df.
Proof.
  intros Hnd.
  assert (E : linhas (clean_usuarios df) = map limpar_usuario (linhas df)).
  { rewrite linhas_clean_usuarios. apply primeiras_fixed.
    - now rewrite map_map.
    - simpl. tauto. }
  split; [exact E|].
  now rewrite <- (length_linhas (clean_usuarios df)), E, length_map,
    length_linhas.
Qed.

Lemma clean_usuarios_unique_ids_witness :
  NoDup (map Usuario.usuario_id (linhas usuarios_sem_repeticao))
  /\ length (clean_usuarios usuarios_sem_repeticao) = 3%nat.
Proof.
  assert (H : NoDup (map Usuario.usuario_id (linhas usuarios_sem_repeticao))).
  { vm_compute. repeat constructor; simpl; intuition discriminate. }
  split; [exact H|].
  now rewrite (proj2 (@clean_usuarios_unique_ids usuarios_sem_repeticao H)).
Defined.

(* ------------------------------------------------------------------ *)
(** * The Markdown table *)

(** X17. When every header is a column of every row and neither the headers
    nor the cell texts hold a line break, the table has one line per row
    after its two heading lines: split at line breaks, it is the header
    line, the separator line and the row lines in frame order. *)
Theorem dataframe_to_markdown_lines (A : Type)
    (celula : A -> string -> option string)
    (df : DataFrame A) (headers : list string) :
  Forall (fun h => sem_quebra h = true) headers ->
  (forall row h, In row (linhas df) -> In h headers ->
     exists t, celula row h = Some t /\ sem_quebra t = true) ->
  exists txt,
    dataframe_to_markdown celula df headers = Ok txt
    /\ split_linhas txt
       = linha_markdown headers
         :: linha_markdown (map (fun _ => "---"%string) headers)
         :: map (fun row =>
                   linha_markdown
                     (map (fun h => match celula row h with
                                    | Some t => t
                                    | None => EmptyString
                                    end) headers))
                (linhas df)
    /\ length (split_linhas txt) = (2 + length df)%nat.
Proof.
  intros Hh Hcells.
  set (texto := fun row h => match celula row h with
                             | Some t => t
                             | None => EmptyString
                             end).
  assert (Hrow : forall row, In row (linhas df) ->
            em_ordem (str_row_getitem celula row) headers
            = Ok (map (texto row) headers)).
  { intros row Hr. apply em_ordem_Ok. intros h Hin.
    unfold str_row_getitem, texto.
    destruct (Hcells row h Hr Hin) as (t & -> & _). reflexivity. }
  assert (Hrows :
            em_ordem (fun row =>
                        cs <- em_ordem (str_row_getitem celula row) headers ;;
                        Ok ("| " ++ join " | " cs ++ " |")%string)
                     (linhas df)
            = Ok (map (fun row => linha_markdown (map (texto row) headers))
                      (linhas df))).
  { apply em_ordem_Ok. intros row Hr. now rewrite (Hrow row Hr). }
  eexists. split.
  { unfold dataframe_to_markdown. rewrite Hrows. reflexivity. }
  assert (E : split_linhas
                (join NL
                   (linha_markdown headers
                    :: linha_markdown (map (fun _ => "---"%string) headers)
                    :: map (fun row => linha_markdown (map (texto row) headers))
                           (linhas df)))
              = linha_markdown headers
                :: linha_markdown (map (fun _ => "---"%string) headers)
                :: map (fun row => linha_markdown (map (texto row) headers))
                       (linhas df)).
  { apply split_linhas_join; [discriminate|].
    constructor; [now apply sem_quebra_linha_markdown|].
    constructor.
    { apply sem_quebra_linha_markdown, Forall_forall. intros x Hx.
      apply in_map_iff in Hx. destruct Hx as (h & <- & _). reflexivity. }
    apply Forall_forall. intros x Hx. apply in_map_iff in Hx.
    destruct Hx as (row & <- & Hr).
    apply sem_quebra_linha_markdown, Forall_forall. intros y Hy.
    apply in_map_iff in Hy. destruct Hy as (h & <- & Hin).
    unfold texto. destruct (Hcells row h Hr Hin) as (t & -> & Ht). exact Ht. }
  split; [exact E|].
  transitivity (length (linha_markdown headers
                        :: linha_markdown (map (fun _ => "---"%string) headers)
                        :: map (fun row =>
                                  linha_markdown (map (texto row) headers))
                               (linhas df))).
  - apply (f_equal (@length string)). exact E.
  - cbn [length]. now rewrite length_map, length_linhas.
Qed.

Lemma dataframe_to_markdown_lines_witness :
  exists txt,
    dataframe_to_markdown celula_categoria
      (interacoes_por_categoria ordenar_desc_estavel Exemplo.engajamento)
      ["Categoria"; "Score"]%string = Ok txt
    /\ split_linhas txt
       = ["| Categoria | Score |"; "| --- | --- |"; "| video | 4 |";
          "| texto | 2 |"]%string.
Proof.
  assert (Hh : Forall (fun h => sem_quebra h = true)
                      ["Categoria"; "Score"]%string)
    by (repeat constructor).
  assert (Hc : forall row h,
             In row (linhas (interacoes_por_categoria ordenar_desc_estavel
                                                      Exemplo.engajamento)) ->
             In h ["Categoria"; "Score"]%string ->
             exists t, celula_categoria row h = Some t /\ sem_quebra t = true).
  { intros row h Hr Hin.
    assert (Hrows : linhas (interacoes_por_categoria ordenar_desc_estavel
                                                     Exemplo.engajamento)
                    = [mkLinhaCategoria "video" 2 4;
                       mkLinhaCategoria "texto" 1 2])
      by (vm_compute; reflexivity).
    rewrite Hrows in Hr.
    destruct Hr as [<-|[<-|[]]]; destruct Hin as [<-|[<-|[]]];
      eexists; split; vm_compute; reflexivity. }
  destruct (dataframe_to_markdown_lines celula_categoria _ Hh Hc)
    as (txt & Hok & Hsplit & _).
  exists txt. split; [exact Hok|]. rewrite Hsplit. vm_compute. reflexivity.
Defined.

(** X18. The table fails only on a missing column: the error is the
    [KeyError] of a header that some row lacks, and one such row makes it
    fail; a frame without rows gives the two heading lines whatever the
    headers are. *)
Theorem dataframe_to_markdown_key_error (A : Type)
    (celula : A -> string -> option string)
    (df : DataFrame A) (headers : list string) :
  (forall e,
      dataframe_to_markdown celula df headers = Raise e ->
      exists row h,
        In row (linhas df) /\ In h headers /\ celula row h = None
        /\ e = KeyError h)
  /\ ((exists row h,
         In row (linhas df) /\ In h headers /\ celula row h = None) ->
      exists h, In h headers
                /\ dataframe_to_markdown celula df headers = Raise (KeyError h))
  /\ (df = [] ->
      dataframe_to_markdown celula df headers
      = Ok (linha_markdown headers ++ NL
            ++ linha_markdown (map (fun _ => "---"%string) headers))%string).
Proof.
  assert (Hraise : forall e,
            dataframe_to_markdown celula df headers = Raise e ->
            exists row h,
              In row (linhas df) /\ In h headers /\ celula row h = None
              /\ e = KeyError h).
  { intros e. unfold dataframe_to_markdown.
    destruct (em_ordem _ (linhas df)) as [rows|e'] eqn:E; cbn [bind];
      [discriminate|].
    intros H. injection H as ->.
    apply em_ordem_Raise in E. destruct E as (row & Hr & Hf).
    destruct (em_ordem (str_row_getitem celula row) headers) as [cs|e'] eqn:Ec;
      cbn [bind] in Hf; [discriminate Hf|].
    injection Hf as ->. apply em_ordem_Raise in Ec.
    destruct Ec as (h & Hin & Hg). unfold str_row_getitem in Hg.
    destruct (celula row h) eqn:Ecel; [discriminate Hg|].
    injection Hg as <-. now exists row, h. }
  split; [exact Hraise|]. split.
  - intros (row & h & Hr & Hin & Hc).
    set (f := fun row : A =>
                cs <- em_ordem (str_row_getitem celula row) headers ;;
                Ok ("| " ++ join " | " cs ++ " |")%string).
    assert (Hf : exists e, f row = Raise e).
    { destruct (@em_ordem_fails _ _ (str_row_getitem celula row) headers h
                  (KeyError h) Hin) as [e' He'].
      - unfold str_row_getitem. now rewrite Hc.
      - exists e'. unfold f. now rewrite He'. }
    destruct Hf as [e Hf].
    destruct (@em_ordem_fails _ _ f (linhas df) row e Hr Hf) as [e' He'].
    assert (Hd : dataframe_to_markdown celula df headers = Raise e').
    { unfold dataframe_to_markdown. fold f. now rewrite He'. }
    destruct (Hraise e' Hd) as (row' & h' & _ & Hin' & _ & ->).
    now exists h'.
  - intros ->. reflexivity.
Qed.

(* ------------------------------------------------------------------ *)
(** * Weights, days and the best authors *)



(** X21. The ranking keeps the best: for [top_n >= 0], an author left out
    of the ranking has a score no higher than any author in it. *)
Theorem top_autores_keeps_highest
    (sort : forall A : Type, (A -> Z) -> list A -> list A)
    (df : DataFrame Engajamento.t) (n : Z) :
  contrato_ordenacao sort ->
  (0 <= n)%Z ->
  let out := linhas (top_autores_por_engajamento sort df (Some n)) in
  exists fora,
    Permutation (out ++ fora) (ranking_por_autor df)
    /\ (forall dentro row, In dentro out -> In row fora ->
          (score_engajamento row <= score_engajamento dentro)%Z).
Proof.
  intros Hsort Hn. cbv zeta. rewrite linhas_top_autores. unfold head_linhas.
  destruct (Z.leb_spec 0 n) as [_|Hneg]; [|lia].
  destruct (linhas_ordenadas Hsort score_engajamento (ranking_por_autor df))
    as [Hperm Hsorted].
  set (R := linhas _) in *.
  exists (skipn (Z.to_nat n) R). split.
  - now rewrite firstn_skipn.
  - intros dentro row Hd Hr.
    rewrite <- (firstn_skipn (Z.to_nat n) R) in Hsorted.
    exact (@StronglySorted_app_inv _ _ _ _ Hsorted dentro row Hd Hr).
Qed.

Lemma top_autores_keeps_highest_witness :
  contrato_ordenacao ordenar_desc_estavel
  /\ exists fora,
       Permutation
         (linhas (top_autores_por_engajamento ordenar_desc_estavel
                                              Exemplo.engajamento (Some 1%Z))
          ++ fora)
         (ranking_por_autor Exemplo.engajamento).
Proof.
  split; [exact contrato_ordenar_desc_estavel|].
  destruct (@top_autores_keeps_highest ordenar_desc_estavel
              Exemplo.engajamento 1%Z contrato_ordenar_desc_estavel
              ltac:(lia)) as (fora & Hperm & _).
  now exists fora.
Defined.
